(** * nxbt: the BlueZ adapter layer and the record/playback loop

    A shallow embedding of [src/nxbt/bluez.py] and [src/main.py].

    Conventions.
    - Python [str] values are Rocq strings.  The texts at hand (D-Bus object
      paths, MAC addresses, command words, BlueZ aliases) are ASCII;
      [upper] and [strip] act on the ASCII range as [str.upper] and
      [str.strip] do there.
    - Python [bytes] are lists of integers, one per byte.
    - Code that can raise returns a [result]; code that touches the host
      (file system, helper binaries, clock) runs in the monad [M] over an
      explicit [World]. *)

From Stdlib Require Import ZArith Lia Ascii String SpecFloat.
From stdpp Require Import base strings list gmap.

Local Open Scope string_scope.
Local Open Scope list_scope.
Local Open Scope Z_scope.

(** ** Exceptions and results *)

(** The exception classes the embedded code can raise.  The message of a
    plain [Exception] built from a literal is a string; the one built by
    [_run_command] carries the decoded error text as code points. *)
Inductive exn : Type :=
  | Exception (msg : string)
  | CommandError (cmd_err : list Z)
  | UnicodeDecodeError
  | OSError
  | KeyError (key : string)
  | IndexError
  | AssertionError
  | TypeError
  | AttributeError
  | FileNotFoundError
  | FileExistsError
  | IsADirectoryError
  | PermissionError
  | DBusException.

Inductive result (A : Type) : Type :=
  | Ok (a : A)
  | Raise (e : exn).
Arguments Ok {A} a.
Arguments Raise {A} e.

Definition raises {A : Type} (r : result A) : Prop :=
  match r with Ok _ => False | Raise _ => True end.

Definition rbind {A B : Type} (r : result A) (k : A -> result B) : result B :=
  match r with Ok a => k a | Raise e => Raise e end.

(** ** Python string primitives *)

Module PyStr.

(** [s.split(sep)] for a one-character separator: one field per
    occurrence of [sep], plus one; never the empty list. *)
Fixpoint split (sep : ascii) (s : string) : list string :=
  match s with
  | EmptyString => [""]
  | String c r =>
      if Ascii.eqb c sep then "" :: split sep r
      else match split sep r with
           | h :: t => String c h :: t
           | [] => [String c ""]
           end
  end.

(** [sep.join(fields)]. *)
Fixpoint join (sep : string) (fields : list string) : string :=
  match fields with
  | [] => ""
  | [f] => f
  | f :: rest => f +:+ sep +:+ join sep rest
  end.

(** [c in s]. *)
Fixpoint contains (c : ascii) (s : string) : bool :=
  match s with
  | EmptyString => false
  | String d r => Ascii.eqb d c || contains c r
  end.

(** [l[-1]] on a list of strings; [IndexError] on the empty list. *)
Definition last_item (l : list string) : result string :=
  match last l with
  | Some x => Ok x
  | None => Raise IndexError
  end.

(** [l[i]] for a non-negative index. *)
Definition item (l : list string) (i : nat) : result string :=
  match l !! i with
  | Some x => Ok x
  | None => Raise IndexError
  end.

Definition upper_ascii (c : ascii) : ascii :=
  let n := nat_of_ascii c in
  if (Nat.leb 97 n && Nat.leb n 122)%bool then ascii_of_nat (n - 32) else c.

(** [s.upper()]. *)
Fixpoint upper (s : string) : string :=
  match s with
  | EmptyString => EmptyString
  | String c r => String (upper_ascii c) (upper r)
  end.

(** [s.startswith(p)]. *)
Fixpoint startswith (p s : string) : bool :=
  match p, s with
  | EmptyString, _ => true
  | String a p', String b s' => Ascii.eqb a b && startswith p' s'
  | String _ _, EmptyString => false
  end.

(** The ASCII characters [str.strip] removes: tab, line feed, vertical
    tab, form feed, carriage return, the four separators 28..31 and the
    space. *)
Definition is_space (c : ascii) : bool :=
  let n := nat_of_ascii c in
  ((Nat.leb 9 n && Nat.leb n 13) || (Nat.leb 28 n && Nat.leb n 32))%bool.

Fixpoint lstrip (s : string) : string :=
  match s with
  | EmptyString => EmptyString
  | String c r => if is_space c then lstrip r else s
  end.

Fixpoint rstrip (s : string) : string :=
  match s with
  | EmptyString => EmptyString
  | String c r =>
      match rstrip r with
      | EmptyString => if is_space c then EmptyString else String c EmptyString
      | r' => String c r'
      end
  end.

(** [s.strip()]. *)
Definition strip (s : string) : string := rstrip (lstrip s).

(** Iterating a text file: each line keeps its line feed. *)
Fixpoint lines_from (acc : string -> string) (s : string) : list string :=
  match s with
  | EmptyString => match acc "" with EmptyString => [] | l => [l] end
  | String c r =>
      if Ascii.eqb c "010"%char
      then acc (String c "") :: lines_from (fun x => x) r
      else lines_from (fun x => acc (String c x)) r
  end.

Definition lines (s : string) : list string := lines_from (fun x => x) s.

End PyStr.

(** ** Decoding of command output *)

Module Utf8.

Definition cont (b : Z) : bool := (128 <=? b) && (b <=? 191).

Definition between (lo hi b : Z) : bool := (lo <=? b) && (b <=? hi).

(** [bytes.decode("utf-8")] with the default strict error handling: the
    code points of a well-formed UTF-8 text, [None] where Python raises
    [UnicodeDecodeError] (stray or missing continuation bytes, overlong
    forms, surrogates, values above U+10FFFF). *)
Fixpoint decode (bs : list Z) : option (list Z) :=
  match bs with
  | [] => Some []
  | b0 :: r0 =>
      if between 0 127 b0 then cons b0 <$> decode r0
      else match r0 with
      | [] => None
      | b1 :: r1 =>
          if between 194 223 b0 then
            if cont b1
            then cons ((b0 - 192) * 64 + (b1 - 128)) <$> decode r1
            else None
          else match r1 with
          | [] => None
          | b2 :: r2 =>
              if between 224 239 b0 then
                if (if b0 =? 224 then between 160 191 b1
                    else if b0 =? 237 then between 128 159 b1
                    else cont b1) && cont b2
                then cons ((b0 - 224) * 4096 + (b1 - 128) * 64 + (b2 - 128))
                       <$> decode r2
                else None
              else match r2 with
              | [] => None
              | b3 :: r3 =>
                  if between 240 244 b0 then
                    if (if b0 =? 240 then between 144 191 b1
                        else if b0 =? 244 then between 128 143 b1
                        else cont b1) && cont b2 && cont b3
                    then cons ((b0 - 240) * 262144 + (b1 - 128) * 4096
                               + (b2 - 128) * 64 + (b3 - 128))
                           <$> decode r3
                    else None
                  else None
              end
          end
      end
  end.

(** [s.replace("\n", "")] on code points. *)
Definition drop_newlines (s : list Z) : list Z :=
  filter (fun c => c ≠ 10) s.

End Utf8.

(** ** The host *)

Inductive fnode : Type :=
  | RegularFile (content : string)
  | Directory.

(** What [subprocess.run(..., stdout=PIPE, stderr=PIPE)] returns. *)
Record CompletedProcess : Type := mkCompleted {
  returncode : Z;
  stdout : list Z;
  stderr : list Z
}.

Inductive effect : Type :=
  | Ran (command : list string)
  | Slept (milliseconds : Z).

(** The part of the host the adapter layer touches.  [spawn] answers a
    command given everything done before it ([None]: the program could not
    be started); [journal] records the commands started and the pauses, most
    recent last. *)
Record World : Type := mkWorld {
  path_tools : list string;
  privileged : bool;
  fs : gmap string fnode;
  spawn : list effect -> list string -> option CompletedProcess;
  journal : list effect
}.

Definition M (A : Type) : Type := World -> result A * World.

Definition ret {A : Type} (a : A) : M A := fun W => (Ok a, W).

Definition raise {A : Type} (e : exn) : M A := fun W => (Raise e, W).

Definition bind {A B : Type} (m : M A) (k : A -> M B) : M B :=
  fun W => match m W with
           | (Ok a, W') => k a W'
           | (Raise e, W') => (Raise e, W')
           end.

Definition lift {A : Type} (r : result A) : M A := fun W => (r, W).

Notation "'do' x <- m 'in' k" := (bind m (fun x => k))
  (at level 10, x name, m at level 100, k at level 200).
Notation "'run' m 'then' k" := (bind m (fun _ => k))
  (at level 10, m at level 100, k at level 200).

Definition set_fs (f : gmap string fnode) (W : World) : World :=
  mkWorld (path_tools W) (privileged W) f (spawn W) (journal W).

Definition record_effect (e : effect) (W : World) : World :=
  mkWorld (path_tools W) (privileged W) (fs W) (spawn W) (journal W ++ [e]).

(** [shutil.which(tool) is not None]. *)
Definition which (tool : string) : M bool :=
  fun W => (Ok (bool_decide (tool ∈ path_tools W)), W).

(** [time.sleep]. *)
Definition sleep (milliseconds : Z) : M unit :=
  fun W => (Ok tt, record_effect (Slept milliseconds) W).

(** [subprocess.run(command, stdout=PIPE, stderr=PIPE)]. *)
Definition subprocess_run (command : list string) : M CompletedProcess :=
  fun W =>
    let W' := record_effect (Ran command) W in
    match spawn W (journal W) command with
    | Some cp => (Ok cp, W')
    | None => (Raise OSError, W')
    end.

(** [Path.is_file()]. *)
Definition is_file (p : string) : M bool :=
  fun W => (Ok (match fs W !! p with Some (RegularFile _) => true | _ => false end), W).

(** [open(p).read()]. *)
Definition read_text (p : string) : M string :=
  fun W => match fs W !! p with
           | Some (RegularFile c) => (Ok c, W)
           | Some Directory => (Raise IsADirectoryError, W)
           | None => (Raise FileNotFoundError, W)
           end.

(** [Path.mkdir(parents=True, exist_ok=True)]. *)
Definition mkdir_p (p : string) : M unit :=
  fun W => match fs W !! p with
           | Some Directory => (Ok tt, W)
           | Some (RegularFile _) => (Raise FileExistsError, W)
           | None => if privileged W then (Ok tt, set_fs (<[p := Directory]> (fs W)) W)
                     else (Raise PermissionError, W)
           end.

(** [open(p, "w").write(text)]. *)
Definition write_text (p text : string) : M unit :=
  fun W => match fs W !! p with
           | Some Directory => (Raise IsADirectoryError, W)
           | _ => if privileged W
                  then (Ok tt, set_fs (<[p := RegularFile text]> (fs W)) W)
                  else (Raise PermissionError, W)
           end.

(** [os.remove(p)]. *)
Definition os_remove (p : string) : M unit :=
  fun W => match fs W !! p with
           | None => (Raise FileNotFoundError, W)
           | Some Directory => (Raise IsADirectoryError, W)
           | Some (RegularFile _) =>
               if privileged W then (Ok tt, set_fs (delete p (fs W)) W)
               else (Raise PermissionError, W)
           end.

(** [try: m except FileNotFoundError: handler]. *)
Definition except_FileNotFoundError {A : Type} (m : M A) (handler : M A) : M A :=
  fun W => match m W with
           | (Raise FileNotFoundError, W') => handler W'
           | other => other
           end.

(** [for i in range(n): body(i)], counting from [i]. *)
Fixpoint for_range (i n : nat) (body : nat -> M unit) : M unit :=
  match n with
  | O => ret tt
  | S n' => run body i then for_range (S i) n' body
  end.

(** ** src/nxbt/bluez.py *)

Module Bluez.

Definition SERVICE_NAME : string := "org.bluez".
Definition BLUEZ_OBJECT_PATH : string := "/org/bluez".
Definition ADAPTER_INTERFACE : string := SERVICE_NAME +:+ ".Adapter1".
Definition PROFILEMANAGER_INTERFACE : string := SERVICE_NAME +:+ ".ProfileManager1".
Definition DEVICE_INTERFACE : string := SERVICE_NAME +:+ ".Device1".

Definition newline : string := String "010"%char EmptyString.

(** *** Helper commands *)

Definition _run_command (command : list string) : M CompletedProcess :=
  do result <- subprocess_run command in
  match Utf8.decode (stderr result) with
  | None => raise UnicodeDecodeError
  | Some text =>
      let cmd_err := Utf8.drop_newlines text in
      match cmd_err with
      | [] => ret result
      | _ :: _ => raise (CommandError cmd_err)
      end
  end.

Definition service_path : string := "/lib/systemd/system/bluetooth.service".
Definition override_dir : string := "/run/systemd/system/bluetooth.service.d".
Definition override_path : string := override_dir +:+ "/nxbt.conf".

(** Lines 140-147: reload the units, restart the service, wait. *)
Definition reload_and_restart : M unit :=
  run _run_command ["systemctl"; "daemon-reload"] then
  run _run_command ["systemctl"; "restart"; "bluetooth"] then
  sleep 500.

Definition toggle_clean_bluez (toggle : bool) : M unit :=
  if toggle then
    do present <- is_file override_path in
    if present then
      ret tt
    else
      do text <- read_text service_path in
      do exec_start <-
        match List.find (PyStr.startswith "ExecStart=") (PyStr.lines text) with
        | Some line => ret (PyStr.strip line +:+ " --compat --noplugin=*")
        | None => raise (Exception "systemd service file doesn't have a ExecStart line")
        end in
      let override := "[Service]" +:+ newline +:+ "ExecStart=" +:+ newline +:+ exec_start in
      run mkdir_p override_dir then
      run write_text override_path override then
      reload_and_restart
  else
    do removed <- except_FileNotFoundError
                    (run os_remove override_path then ret true)
                    (ret false) in
    if removed then reload_and_restart else ret tt.

Definition missing_tool (tool : string) : exn :=
  Exception (tool +:+ " is not available on this system." +:+
             "If you can, please install this tool, as " +:+
             "it is required for proper functionality.").

(** The vendor command of line 200: [hcitool -i <id> cmd 0x3f 0x001]
    followed by the six arguments. *)
Definition vendor_command (adapter_id : string) (args : list string) : list string :=
  ["hcitool"; "-i"; adapter_id; "cmd"; "0x3f"; "0x001"] ++ args.

Definition reset_command (adapter_id : string) : list string :=
  ["hciconfig"; adapter_id; "reset"].

Definition hex_arg (octet : string) : string := "0x" +:+ octet.

(** [path.split('/')[-1]]. *)
Definition adapter_id_of (path : string) : result string :=
  PyStr.last_item (PyStr.split "/"%char path).

(** The body of the loop of lines 197-204, at index [i]. *)
Definition replace_at (adapter_paths addresses : list string) (i : nat) : M unit :=
  do path <- lift (PyStr.item adapter_paths i) in
  do adapter_id <- lift (adapter_id_of path) in
  do address <- lift (PyStr.item addresses i) in
  let mac := PyStr.split ":"%char address in
  do m5 <- lift (PyStr.item mac 5) in
  do m4 <- lift (PyStr.item mac 4) in
  do m3 <- lift (PyStr.item mac 3) in
  do m2 <- lift (PyStr.item mac 2) in
  do m1 <- lift (PyStr.item mac 1) in
  do m0 <- lift (PyStr.item mac 0) in
  let cmds := vendor_command adapter_id
                [hex_arg m5; hex_arg m4; hex_arg m3; hex_arg m2; hex_arg m1; hex_arg m0] in
  run _run_command cmds then
  run _run_command (reset_command adapter_id) then
  ret tt.

Definition replace_mac_addresses (adapter_paths addresses : list string) : M unit :=
  do hcitool <- which "hcitool" in
  if negb hcitool then raise (missing_tool "hcitool") else
  do hciconfig <- which "hciconfig" in
  if negb hciconfig then raise (missing_tool "hciconfig") else
  run (match addresses with
       | [] => ret tt
       | _ :: _ =>
           if bool_decide (length addresses = length adapter_paths)
           then ret tt else raise AssertionError
       end) then
  for_range 0 (length adapter_paths) (replace_at adapter_paths addresses).

(** *** The control service *)

(** D-Bus values of the properties read here. *)
Inductive variant : Type :=
  | VBoolean (b : bool)
  | VString (s : string)
  | VUInt32 (n : Z).

(** Python dictionaries whose iteration order matters are association
    lists; [dict_get] is [d.get(k)]. *)
Fixpoint dict_get {V : Type} (k : string) (d : list (string * V)) : option V :=
  match d with
  | [] => None
  | (k', v) :: rest => if String.eqb k' k then Some v else dict_get k rest
  end.

Definition properties : Type := list (string * variant).
Definition interfaces : Type := list (string * properties).
Definition managed_objects : Type := list (string * interfaces).

(** The system bus: for each service name, what its object manager
    reports. *)
Definition SystemBus : Type := list (string * managed_objects).

(** [manager.GetManagedObjects()] on the root object of a service. *)
Definition GetManagedObjects (bus : SystemBus) (service_name : string)
  : result managed_objects :=
  match dict_get service_name bus with
  | Some objs => Ok objs
  | None => Raise DBusException
  end.

(** [props.Get(interface, name)] on the object at [path]. *)
Definition Get (bus : SystemBus) (service_name path interface_name name : string)
  : result variant :=
  match dict_get service_name bus with
  | None => Raise DBusException
  | Some objs =>
      match dict_get path objs with
      | None => Raise DBusException
      | Some ifaces =>
          match dict_get interface_name ifaces with
          | None => Raise DBusException
          | Some props =>
              match dict_get name props with
              | None => Raise DBusException
              | Some v => Ok v
              end
          end
      end
  end.

(** [s.endswith(suffix)]. *)
Definition endswith (suffix s : string) : bool :=
  PyStr.startswith (String.rev suffix) (String.rev s).

(** Truth value of a D-Bus value. *)
Definition variant_truthy (v : variant) : bool :=
  match v with
  | VBoolean b => b
  | VString s => negb (String.eqb s "")
  | VUInt32 n => negb (n =? 0)
  end.

(** [str] methods called on a property that is not a string raise
    [AttributeError]. *)
Definition variant_upper (v : variant) : result string :=
  match v with
  | VString s => Ok (PyStr.upper s)
  | _ => Raise AttributeError
  end.

Fixpoint find_object_path_in (objs : managed_objects) (interface_name : string)
    (object_name : option string) : result (option string) :=
  match objs with
  | [] => Ok None
  | (path, ifaces) :: rest =>
      match dict_get interface_name ifaces with
      | None => find_object_path_in rest interface_name object_name
      | Some managed_interface =>
          match object_name with
          | None | Some "" => Ok (Some path)
          | Some name =>
              match dict_get "Address" managed_interface with
              | None => Raise (KeyError "Address")
              | Some address =>
                  if (match address with
                      | VString a => String.eqb name a
                      | _ => false
                      end) || endswith name path
                  then Ok (Some path)
                  else find_object_path_in rest interface_name object_name
              end
          end
      end
  end.

Definition find_object_path (bus : SystemBus) (service_name interface_name : string)
    (object_name : option string) : result (option string) :=
  rbind (GetManagedObjects bus service_name) (fun objs =>
  find_object_path_in objs interface_name object_name).

Definition find_objects (bus : SystemBus) (service_name interface_name : string)
  : result (list string) :=
  rbind (GetManagedObjects bus service_name) (fun objs =>
  Ok (List.map fst
        (List.filter (fun o => match dict_get interface_name (snd o) with
                               | None => false
                               | Some _ => true
                               end) objs))).

(** [bus.get_object(service_name, path)]: the proxy is built without
    asking the service about [path]; only the service itself has to be
    on the bus. *)
Definition get_object (system_bus : SystemBus) (service_name path : string)
  : result unit :=
  match dict_get service_name system_bus with
  | Some _ => Ok tt
  | None => Raise DBusException
  end.

(** [find_devices_by_alias(alias, return_path=True)]: the loop over the
    device paths, with its two accumulators. *)
Fixpoint find_devices_by_alias_loop (system_bus : SystemBus) (alias : string)
    (addresses matching_paths : list string) (devices : list string)
  : result (list string * list string) :=
  match devices with
  | [] => Ok (addresses, matching_paths)
  | path :: rest =>
      rbind (Get system_bus SERVICE_NAME path DEVICE_INTERFACE "Alias") (fun a =>
      rbind (variant_upper a) (fun device_alias =>
      rbind (Get system_bus SERVICE_NAME path DEVICE_INTERFACE "Address") (fun d =>
      rbind (variant_upper d) (fun device_addr =>
      if String.eqb (PyStr.upper device_alias) (PyStr.upper alias)
      then find_devices_by_alias_loop system_bus alias
             (addresses ++ [device_addr]) (matching_paths ++ [path]) rest
      else find_devices_by_alias_loop system_bus alias
             addresses matching_paths rest))))
  end.

Definition find_devices_by_alias (system_bus : SystemBus) (alias : string)
  : result (list string * list string) :=
  rbind (find_objects system_bus SERVICE_NAME DEVICE_INTERFACE)
        (find_devices_by_alias_loop system_bus alias [] []).

(** The [BlueZ] object: the fields the code below reads. *)
Record BlueZ : Type := mkBlueZ {
  bus : SystemBus;
  device_path : string;
  device_id : string
}.

(** [BlueZ.__init__]; [adapter_path] is [None] or a path. *)
Definition BlueZ_init (system_bus : SystemBus) (adapter_path : option string)
  : result BlueZ :=
  rbind (match adapter_path with
         | None => find_object_path system_bus SERVICE_NAME ADAPTER_INTERFACE None
         | Some p => Ok (Some p)
         end) (fun found =>
  match found with
  | None => Raise (Exception "Unable to find a bluetooth adapter")
  | Some p =>
      rbind (get_object system_bus SERVICE_NAME p) (fun _ =>
      rbind (adapter_id_of p) (fun id =>
      rbind (get_object system_bus SERVICE_NAME BLUEZ_OBJECT_PATH) (fun _ =>
      rbind (get_object system_bus SERVICE_NAME p) (fun _ =>
      Ok (mkBlueZ system_bus p id)))))
  end).

(** The [address] property: [self.device.Get(ADAPTER_INTERFACE,
    "Address").upper()]. *)
Definition address (self : BlueZ) : result string :=
  rbind (Get (bus self) SERVICE_NAME (device_path self) ADAPTER_INTERFACE "Address")
        variant_upper.

(** The [name] property. *)
Definition name (self : BlueZ) : result variant :=
  Get (bus self) SERVICE_NAME (device_path self) ADAPTER_INTERFACE "Name".

Definition set_class (self : BlueZ) (device_class : string) : M unit :=
  do hciconfig <- which "hciconfig" in
  if negb hciconfig then raise (missing_tool "hciconfig") else
  run _run_command ["hciconfig"; device_id self; "class"; device_class] then
  ret tt.

(** The loop of lines 429-445 over the device paths, with its
    accumulator.  [alias_filter] is [None] for the default [False], else
    the string given. *)
Fixpoint find_connected_devices_loop (system_bus : SystemBus)
    (alias_filter : option string) (conn_devices : list string)
    (devices : list string) : result (list string) :=
  match devices with
  | [] => Ok conn_devices
  | path :: rest =>
      rbind (Get system_bus SERVICE_NAME path DEVICE_INTERFACE "Connected")
        (fun device_conn_status =>
      rbind (Get system_bus SERVICE_NAME path DEVICE_INTERFACE "Alias") (fun a =>
      rbind (variant_upper a) (fun device_alias =>
      if variant_truthy device_conn_status then
        if (match alias_filter with
            | None | Some "" => false
            | Some f => String.eqb device_alias (PyStr.upper f)
            end)
        then find_connected_devices_loop system_bus alias_filter
               (conn_devices ++ [path]) rest
        else find_connected_devices_loop system_bus alias_filter
               (conn_devices ++ [path]) rest
      else find_connected_devices_loop system_bus alias_filter conn_devices rest)))
  end.

Definition find_connected_devices (self : BlueZ) (alias_filter : option string)
  : result (list string) :=
  rbind (find_objects (bus self) SERVICE_NAME DEVICE_INTERFACE)
        (find_connected_devices_loop (bus self) alias_filter []).

End Bluez.

(** ** src/main.py *)

Module Main.

(** The values [request.json] and [json.loads] produce. *)
#[local] Set Warnings "-register-all".
Inductive json : Type :=
  | JNull
  | JBool (b : bool)
  | JInt (n : Z)
  | JFloat (x : spec_float)
  | JStr (s : string)
  | JArr (items : list json)
  | JObj (members : list (string * json)).

(** Python's truth value, as tested by [if wrapper['playing']:]. *)
Definition truthy (v : json) : bool :=
  match v with
  | JNull => false
  | JBool b => b
  | JInt n => negb (n =? 0)
  | JFloat (S754_zero _) => false
  | JFloat _ => true
  | JStr s => negb (String.eqb s "")
  | JArr items => match items with [] => false | _ :: _ => true end
  | JObj members => match members with [] => false | _ :: _ => true end
  end.

(** [json.loads(json.dumps(v))]: a fresh value built from the text of
    [v], member by member. *)
Fixpoint json_copy (v : json) : json :=
  match v with
  | JArr items => JArr (List.map json_copy items)
  | JObj members => JObj (List.map (fun m => (fst m, json_copy (snd m))) members)
  | JNull => JNull
  | JBool b => JBool b
  | JInt n => JInt n
  | JFloat x => JFloat x
  | JStr s => JStr s
  end.

Fixpoint characters (s : string) : list json :=
  match s with
  | EmptyString => []
  | String c r => JStr (String c EmptyString) :: characters r
  end.

(** What [for action in v:] runs over; [TypeError] when [v] is not
    iterable. *)
Definition iterate (v : json) : result (list json) :=
  match v with
  | JArr items => Ok items
  | JStr s => Ok (characters s)
  | JObj members => Ok (List.map (fun m => JStr (fst m)) members)
  | JNull | JBool _ | JInt _ | JFloat _ => Raise TypeError
  end.

(** [wrapper[key]]. *)
Definition getitem (wrapper : gmap string json) (key : string) : result json :=
  match wrapper !! key with
  | Some v => Ok v
  | None => Raise (KeyError key)
  end.

(** Lines 34-37; the idle packet comes from [nxbt.controller.input]. *)
Definition initial_wrapper (DIRECT_INPUT_IDLE_PACKET : json) : gmap string json :=
  <["playing" := JBool false]>
    (<["recording" := JBool false]>
       (<["packet" := json_copy DIRECT_INPUT_IDLE_PACKET]> ∅)).

(** *** The HTTP endpoints

    Each takes the dictionary and gives the reply (or the exception the
    view raises) and the dictionary afterwards. *)

Inductive response : Type :=
  | jsonify (v : json)
  | text (body : string).

Definition view : Type := gmap string json -> result response * gmap string json.

Definition get_gamepad (request_json : json) : view := fun wrapper =>
  (Ok (jsonify (JObj [("message", JStr "Received your POST request!")])),
   <["packet" := request_json]> wrapper).

Definition get_recording : view := fun wrapper =>
  (rbind (getitem wrapper "recording") (fun v => Ok (jsonify v)), wrapper).

Definition set_recording (request_json : json) : view := fun wrapper =>
  (Ok (text "ok"), <["recording" := request_json]> wrapper).

Definition get_playing : view := fun wrapper =>
  (rbind (getitem wrapper "playing") (fun v => Ok (jsonify v)), wrapper).

Definition set_playing (request_json : json) : view := fun wrapper =>
  (Ok (text "ok"), <["playing" := request_json]> wrapper).

Definition get_input_list : view := fun wrapper =>
  (rbind (getitem wrapper "input_list") (fun v => Ok (jsonify v)), wrapper).

Definition set_input_list (request_json : json) : view := fun wrapper =>
  (Ok (text "ok"), <["input_list" := request_json]> wrapper).

Definition clear_input_list : view := fun wrapper =>
  (Ok (text "ok"), <["input_list" := JArr []]> wrapper).

Inductive request : Type :=
  | POST_gamepad (request_json : json)
  | GET_get_recording
  | POST_set_recording (request_json : json)
  | GET_get_playing
  | POST_set_playing (request_json : json)
  | GET_get_input_list
  | POST_set_input_list (request_json : json)
  | GET_clear_input_list.

(** The routing table of lines 45-84. *)
Definition route (r : request) : view :=
  match r with
  | POST_gamepad j => get_gamepad j
  | GET_get_recording => get_recording
  | POST_set_recording j => set_recording j
  | GET_get_playing => get_playing
  | POST_set_playing j => set_playing j
  | GET_get_input_list => get_input_list
  | POST_set_input_list j => set_input_list j
  | GET_clear_input_list => clear_input_list
  end.

(** *** The loop thread *)

(** What [main_thread] does to the outside, statement by statement:
    [Play] is the assignment of line 105, [Send] that of line 110,
    [Append] the call of line 112. *)
Inductive action : Type :=
  | PrintState
  | Print (message : string)
  | Pause (milliseconds : Z)
  | Play (recorded : json)
  | Send (packet : json)
  | Append (packet : json).

Definition is_play (a : action) : bool :=
  match a with Play _ => true | _ => false end.

Definition is_append (a : action) : bool :=
  match a with Append _ => true | _ => false end.

(** Lines 104-106. *)
Definition play_all (input_list : list json) : list action :=
  List.flat_map (fun recorded => [Play recorded; Pause 1]) input_list.

(** One pass through the body of [while True:] at lines 102-113: what
    it does, and the dictionary it leaves or the exception that ends
    the thread. *)
Definition loop_body (wrapper : gmap string json)
  : list action * result (gmap string json) :=
  match getitem wrapper "playing" with
  | Raise e => ([], Raise e)
  | Ok playing =>
      if truthy playing then
        match rbind (getitem wrapper "input_list") iterate with
        | Raise e => ([], Raise e)
        | Ok input_list =>
            ((play_all input_list ++ [Print "又一轮循环完成"; Pause 5000]),
             Ok wrapper)
        end
      else
        match getitem wrapper "packet" with
        | Raise e => ([], Raise e)
        | Ok packet =>
            let sent := [Send (json_copy packet)] in
            match getitem wrapper "recording" with
            | Raise e => (sent, Raise e)
            | Ok recording =>
                if truthy recording then
                  match getitem wrapper "input_list" with
                  | Raise e => (sent, Raise e)
                  | Ok (JArr input_list) =>
                      ((sent ++ [Append (json_copy packet); Pause 1]),
                       Ok (<["input_list" :=
                               JArr (input_list ++ [json_copy packet])]> wrapper))
                  | Ok _ => (sent, Raise AttributeError)
                  end
                else ((sent ++ [Pause 1]), Ok wrapper)
            end
        end
  end.

(** Where [main_thread] is: in the loop of lines 95-99, in the loop of
    lines 102-113, or ended by an exception. *)
Inductive thread : Type :=
  | Connecting
  | Running
  | Died (e : exn).

Record system : Type := mkSystem {
  wrapper : gmap string json;
  main_thread : thread;
  output : list action;
  replies : list (result response)
}.

(** Lines 34-37 and 116-120: the dictionary is filled, the thread is
    started, the server listens. *)
Definition start (DIRECT_INPUT_IDLE_PACKET : json) : system :=
  mkSystem (initial_wrapper DIRECT_INPUT_IDLE_PACKET) Connecting [] [].

(** What happens next: a request is served, the connecting loop reads
    [server.state['state']], or the transmission loop makes one pass. *)
Inductive event : Type :=
  | Served (r : request)
  | Polled (server_state : string)
  | Pass.

Definition step (s : system) (ev : event) : system :=
  match ev with
  | Served r =>
      let '(reply, wrapper') := route r (wrapper s) in
      mkSystem wrapper' (main_thread s) (output s) (replies s ++ [reply])
  | Polled server_state =>
      match main_thread s with
      | Connecting =>
          if String.eqb "connected" server_state then
            mkSystem (<["input_list" := JArr []]> (wrapper s)) Running
                     (output s ++ [PrintState; Print "连接成功"]) (replies s)
          else
            mkSystem (wrapper s) Connecting
                     (output s ++ [PrintState; Pause 1000]) (replies s)
      | _ => s
      end
  | Pass =>
      match main_thread s with
      | Running =>
          match loop_body (wrapper s) with
          | (done, Ok wrapper') =>
              mkSystem wrapper' Running (output s ++ done) (replies s)
          | (done, Raise e) =>
              mkSystem (wrapper s) (Died e) (output s ++ done) (replies s)
          end
      | _ => s
      end
  end.

Definition steps (s : system) (evs : list event) : system :=
  List.fold_left step evs s.

End Main.

Import Main.

(** * Vocabulary of the statements

    The predicates the statements below are written with, and the
    concrete hosts, buses and sessions they are tried on. *)

(** ** The adapter layer *)

(** A field that does not hold the separator. *)
Definition free_of_sep (sep : ascii) (field : string) : Prop :=
  PyStr.contains sep field = false.

(** The last field of a path: what [path.split('/')[-1]] evaluates to. *)
Definition last_field (path : string) : string :=
  default "" (last (PyStr.split "/"%char path)).

(** A command's error output is quiet when it holds line feeds only. *)
Definition quiet (cp : CompletedProcess) : Prop := Forall (eq 10) (stderr cp).

(** Every helper command starts and leaves its error output quiet. *)
Definition helpers_quiet (W : World) : Prop :=
  forall history command,
    exists cp, spawn W history command = Some cp /\ quiet cp.

(** A MAC address as its fields: six of them, none holding a colon. *)
Definition six_octets (octets : list string) : Prop :=
  length octets = 6%nat /\ Forall (free_of_sep ":"%char) octets.

(** The two commands the loop body issues for one adapter. *)
Definition commands_for (path : string) (octets : list string) : list effect :=
  [Ran (Bluez.vendor_command (last_field path) (List.map Bluez.hex_arg (List.rev octets)));
   Ran (Bluez.reset_command (last_field path))].

(** The host after the effects [es] were added to its journal. *)
Definition add_journal (W : World) (es : list effect) : World :=
  mkWorld (path_tools W) (privileged W) (fs W) (spawn W) (journal W ++ es).

(** A host with both helper binaries, no override file, and commands
    that succeed without output. *)
Definition quiet_host : World :=
  mkWorld ["hcitool"; "hciconfig"] true ∅
          (fun _ _ => Some (mkCompleted 0 [] [])) [].

(** A helper that succeeds and writes one line feed to its error output. *)
Definition line_feed_host : World :=
  mkWorld ["hcitool"; "hciconfig"] true ∅
          (fun _ _ => Some (mkCompleted 0 [] [10])) [].

(** A helper that succeeds and writes the letter E to its error output. *)
Definition noisy_host : World :=
  mkWorld ["hcitool"; "hciconfig"] true ∅
          (fun _ _ => Some (mkCompleted 0 [] [69])) [].

(** A host on which the override is in place. *)
Definition cleaned_host : World :=
  mkWorld ["hcitool"; "hciconfig"] true
          {[ Bluez.override_path := RegularFile "[Service]" ]}
          (fun _ _ => Some (mkCompleted 0 [] [])) [].

(** A host as installed: the service unit is there, the override is not. *)
Definition stock_host : World :=
  mkWorld ["hcitool"; "hciconfig"] true
          {[ Bluez.service_path :=
               RegularFile ("[Service]" +:+ Bluez.newline +:+
                            "ExecStart=/usr/libexec/bluetooth/bluetoothd" +:+ Bluez.newline) ]}
          (fun _ _ => Some (mkCompleted 0 [] [])) [].

(** A host without [hcitool]. *)
Definition bare_host : World :=
  mkWorld ["hciconfig"] true ∅ (fun _ _ => Some (mkCompleted 0 [] [])) [].

(** A console and a headset, both connected to the adapter [hci0]. *)
Definition console_path : string := "/org/bluez/hci0/dev_98_B6_E9_E6_88_7F".
Definition headset_path : string := "/org/bluez/hci0/dev_00_1B_66_A1_02_03".

(** The control service with the adapter [hci0] and these two devices. *)
Definition two_devices_bus : Bluez.SystemBus :=
  [("org.bluez",
    [("/org/bluez", [(Bluez.PROFILEMANAGER_INTERFACE, [])]);
     ("/org/bluez/hci0",
      [(Bluez.ADAPTER_INTERFACE, [("Address", Bluez.VString "AA:BB:CC:DD:EE:FF")])]);
     (console_path,
      [(Bluez.DEVICE_INTERFACE,
        [("Address", Bluez.VString "98:B6:E9:E6:88:7F");
         ("Alias", Bluez.VString "Nintendo Switch");
         ("Connected", Bluez.VBoolean true)])]);
     (headset_path,
      [(Bluez.DEVICE_INTERFACE,
        [("Address", Bluez.VString "00:1B:66:A1:02:03");
         ("Alias", Bluez.VString "Headset");
         ("Connected", Bluez.VBoolean true)])])])].

(** The control service runs and exposes no adapter. *)
Definition adapterless_bus : Bluez.SystemBus :=
  [("org.bluez", [("/org/bluez", [(Bluez.PROFILEMANAGER_INTERFACE, [])])])].

(** ** The record and playback loop *)

(** The values assigned to [server.state['direct_input']], in order. *)
Fixpoint transmissions (done : list action) : list json :=
  match done with
  | [] => []
  | Play v :: rest | Send v :: rest => v :: transmissions rest
  | _ :: rest => transmissions rest
  end.

(** A session in playback: one packet recorded, [playing] set. *)
Definition playing_wrapper : gmap string json :=
  <["playing" := JBool true]>
    (<["input_list" := JArr [JObj [("A", JBool true)]]]>
       (initial_wrapper (JObj []))).

(** Both flags set: the pass plays the recorded packet and appends
    nothing. *)
Definition both_flags_wrapper : gmap string json :=
  <["recording" := JBool true]> playing_wrapper.

(** A recording session: for each packet, the client posts it and the
    loop makes a pass. *)
Definition recording_session (packets : list json) : list event :=
  List.flat_map (fun p => [Served (POST_gamepad p); Pass]) packets.

(** Playback is switched on and the loop makes a pass. *)
Definition playback_pass : list event :=
  [Served (POST_set_playing (JBool true)); Pass].

(** The console has connected and recording was switched on. *)
Definition connected_recording : system :=
  steps (start (JObj [])) [Polled "connected"; Served (POST_set_recording (JBool true))].

(** Three input packets. *)
Definition P1 : json := JObj [("A", JBool true)].
Definition P2 : json := JObj [("A", JBool false); ("L_STICK", JObj [("X_VALUE", JInt 100)])].
Definition P3 : json := JObj [("B", JBool true)].

(** What a pass does when there is nothing to play. *)
Definition idle_pass : list action := [Print "又一轮循环完成"; Pause 5000].

(** Playback is switched on right after the connection is made. *)
Definition connected_playing : system :=
  steps (start (JObj [])) [Polled "connected"; Served (POST_set_playing (JBool true))].

(** The events that put [input_list] into the dictionary: the two
    requests that assign it, and the connecting loop seeing the state
    "connected" (line 101 follows). *)
Definition creates_input_list (ev : event) : bool :=
  match ev with
  | Served (POST_set_input_list _) => true
  | Served GET_clear_input_list => true
  | Polled server_state => String.eqb "connected" server_state
  | _ => false
  end.

(** Before the console connects, the client sends a packet, switches
    recording on, and the loop polls twice. *)
Definition before_connection : list event :=
  [Served (POST_gamepad P1); Polled "initializing";
   Served (POST_set_recording (JBool true)); Polled "connecting"; Pass;
   Served GET_get_recording].

(** * More vocabulary: searches, hosts and sessions *)

(** ** The control service, as the searches see it *)

(** The device at [path] reports that it is connected. *)
Definition is_connected (system_bus : Bluez.SystemBus) (path : string) : bool :=
  match Bluez.Get system_bus Bluez.SERVICE_NAME path Bluez.DEVICE_INTERFACE "Connected" with
  | Ok status => Bluez.variant_truthy status
  | Raise _ => false
  end.



(** The control service with two adapters. *)
Definition two_adapters_bus : Bluez.SystemBus :=
  [("org.bluez",
    [("/org/bluez", [(Bluez.PROFILEMANAGER_INTERFACE, [])]);
     ("/org/bluez/hci0",
      [(Bluez.ADAPTER_INTERFACE, [("Address", Bluez.VString "AA:BB:CC:DD:EE:FF")])]);
     ("/org/bluez/hci1",
      [(Bluez.ADAPTER_INTERFACE, [("Address", Bluez.VString "7c:bb:8a:00:11:22")])])])].

(** A console that is connected and a controller that is known but not
    connected. *)
Definition controller_path : string := "/org/bluez/hci0/dev_7C_BB_8A_00_11_22".

Definition mixed_bus : Bluez.SystemBus :=
  [("org.bluez",
    [("/org/bluez/hci0",
      [(Bluez.ADAPTER_INTERFACE, [("Address", Bluez.VString "AA:BB:CC:DD:EE:FF")])]);
     (controller_path,
      [(Bluez.DEVICE_INTERFACE,
        [("Address", Bluez.VString "7c:bb:8a:00:11:22");
         ("Alias", Bluez.VString "Pro Controller");
         ("Connected", Bluez.VBoolean false)])]);
     (console_path,
      [(Bluez.DEVICE_INTERFACE,
        [("Address", Bluez.VString "98:b6:e9:e6:88:7f");
         ("Alias", Bluez.VString "Nintendo Switch");
         ("Connected", Bluez.VBoolean true)])])])].

(** ** Hosts and their journal *)



(** A host whose unit reload fails: the override is absent, the service
    unit is there, and every command writes an error. *)
Definition failing_host : World :=
  mkWorld ["hcitool"; "hciconfig"] true
          {[ Bluez.service_path :=
               RegularFile ("[Service]" +:+ Bluez.newline +:+
                            "ExecStart=/usr/libexec/bluetooth/bluetoothd" +:+ Bluez.newline) ]}
          (fun _ _ => Some (mkCompleted 1 [] [70; 97; 105; 108; 10])) [].


(** A host whose commands write a byte that is no UTF-8 to their error
    output. *)
Definition garbled_host : World :=
  mkWorld ["hcitool"; "hciconfig"] true ∅
          (fun _ _ => Some (mkCompleted 0 [] [69; 255])) [].

(** ** Events and the entries they write *)

(** The entry of the dictionary an event can assign: each [POST] view
    its own, [clear_input_list] and the loop thread the recorded
    sequence, the [GET] views none. *)
Definition may_assign (ev : event) (key : string) : bool :=
  match ev with
  | Served (POST_gamepad _) => String.eqb key "packet"
  | Served (POST_set_recording _) => String.eqb key "recording"
  | Served (POST_set_playing _) => String.eqb key "playing"
  | Served (POST_set_input_list _) | Served GET_clear_input_list =>
      String.eqb key "input_list"
  | Served _ => false
  | Polled _ | Pass => String.eqb key "input_list"
  end.

(** An event of the loop thread. *)
Definition of_loop_thread (ev : event) : bool :=
  match ev with
  | Served _ => false
  | Polled _ | Pass => true
  end.

(** The connecting loop reads the state "connected". *)
Definition sees_connected (ev : event) : bool :=
  match ev with
  | Polled server_state => String.eqb "connected" server_state
  | _ => false
  end.

(** A macro is uploaded, recording and playback are asked for, and the
    loop polls, all before the console connects. *)
Definition eager_client : list event :=
  [Served (POST_set_input_list (JArr [P1; P2])); Polled "initializing";
   Served (POST_set_playing (JBool true)); Pass; Polled "connecting"].

(** The loop is running on a dictionary whose recorded sequence was set
    to a number. *)
Definition connected_scalar : system :=
  steps (start (JObj []))
    [Polled "connected"; Served (POST_set_input_list (JInt 7));
     Served (POST_set_playing (JBool true))].

(** The loop is running, recording is on and the recorded sequence was
    set to an object. *)
Definition connected_object : system :=
  steps (start (JObj []))
    [Polled "connected"; Served (POST_set_input_list (JObj [("A", JBool true)]));
     Served (POST_set_recording (JBool true)); Served (POST_gamepad P1)].

(** The loop is running in direct mode on the packet [P2]. *)
Definition connected_direct : system :=
  steps (start (JObj [])) [Polled "connected"; Served (POST_gamepad P2)].

(** The three entries made at start are there, and a running loop has
    its recorded sequence. *)
Definition entries_present (s : system) : Prop :=
  is_Some (wrapper s !! "packet")
  /\ is_Some (wrapper s !! "recording")
  /\ is_Some (wrapper s !! "playing")
  /\ (main_thread s = Running -> is_Some (wrapper s !! "input_list"))
  /\ (forall key, main_thread s ≠ Died (KeyError key)).

(** * Properties *)

(** ** Strings *)

Section SplitJoin.

Variable sep : ascii.

Lemma split_nonempty (s : string) : PyStr.split sep s ≠ [].
Proof.
  destruct s as [|c r]; simpl; [discriminate|].
  destruct (Ascii.eqb c sep); [discriminate|].
  destruct (PyStr.split sep r); discriminate.
Qed.

Lemma split_free (field : string) :
  free_of_sep sep field -> PyStr.split sep field = [field].
Proof.
  unfold free_of_sep.
  induction field as [|c r IH]; simpl; intros H; [reflexivity|].
  apply orb_false_iff in H as [Hc Hr].
  rewrite Hc, (IH Hr). reflexivity.
Qed.

Lemma split_append (field rest : string) :
  free_of_sep sep field ->
  PyStr.split sep (field +:+ String sep rest) = field :: PyStr.split sep rest.
Proof.
  unfold free_of_sep.
  induction field as [|c r IH]; simpl; intros H.
  - rewrite Ascii.eqb_refl. reflexivity.
  - apply orb_false_iff in H as [Hc Hr].
    rewrite Hc, (IH Hr). reflexivity.
Qed.

(** Splitting a joined list of separator-free fields gives the fields
    back. *)
Lemma split_join (fields : list string) :
  fields ≠ [] ->
  Forall (free_of_sep sep) fields ->
  PyStr.split sep (PyStr.join (String sep EmptyString) fields) = fields.
Proof.
  induction fields as [|f rest IH]; intros Hne Hfree; [congruence|].
  inversion Hfree as [|? ? Hf Hrest]; subst.
  destruct rest as [|g rest'].
  - simpl. apply split_free, Hf.
  - change (PyStr.join (String sep "") (f :: g :: rest'))
      with (f +:+ String sep "" +:+ PyStr.join (String sep "") (g :: rest')).
    change (String sep "" +:+ ?x) with (String sep x).
    rewrite split_append by exact Hf.
    f_equal. apply IH; [discriminate | exact Hrest].
Qed.

End SplitJoin.

Lemma adapter_id_of_total (path : string) :
  Bluez.adapter_id_of path = Ok (last_field path).
Proof.
  unfold Bluez.adapter_id_of, PyStr.last_item, last_field.
  pose proof (split_nonempty "/"%char path) as Hne.
  destruct (last (PyStr.split "/" path)) as [x|] eqn:E; [reflexivity|].
  apply last_None in E. contradiction.
Qed.

Lemma split_after_separator (sep : ascii) (parent rest : string) :
  exists first others,
    PyStr.split sep (parent +:+ String sep rest)
    = ((first :: others) ++ PyStr.split sep rest).
Proof.
  induction parent as [|c r (h & t & IH)]; simpl.
  - rewrite Ascii.eqb_refl. exists "", []. reflexivity.
  - rewrite IH. destruct (Ascii.eqb c sep).
    + exists "", (h :: t). reflexivity.
    + exists (String c h), t. reflexivity.
Qed.

Lemma last_field_of_path (parent id : string) :
  free_of_sep "/"%char id ->
  last_field (parent +:+ String "/"%char id) = id.
Proof.
  intros Hid. unfold last_field.
  destruct (split_after_separator "/"%char parent id) as (h & t & ->).
  rewrite last_app, (split_free _ _ Hid). reflexivity.
Qed.

(** ** Command output *)

Section Decoding.

Import Utf8.

(** A text of line feeds only decodes to itself. *)
Lemma decode_line_feeds (bs : list Z) :
  Forall (eq 10) bs -> decode bs = Some bs.
Proof.
  induction 1 as [|b r <- _ IH]; simpl; [reflexivity|].
  rewrite IH. reflexivity.
Qed.

Lemma drop_newlines_line_feeds (bs : list Z) :
  Forall (eq 10) bs -> drop_newlines bs = [].
Proof.
  unfold drop_newlines.
  induction 1 as [|b r <- _ IH]; [reflexivity|].
  rewrite filter_cons_False by (intros H; apply H; reflexivity).
  exact IH.
Qed.

Lemma drop_newlines_nil_inv (c : Z) (t : list Z) :
  drop_newlines (c :: t) = [] -> c = 10 /\ drop_newlines t = [].
Proof.
  unfold drop_newlines. intros H.
  destruct (decide (c = 10)) as [->|Hc].
  - rewrite filter_cons_False in H by (intros E; apply E; reflexivity).
    split; [reflexivity | exact H].
  - rewrite filter_cons_True in H by exact Hc. discriminate.
Qed.

Ltac bounds :=
  repeat match goal with
    | H : _ && _ = true |- _ => apply andb_true_iff in H as [? ?]
    | H : (_ <=? _) = true |- _ => apply Z.leb_le in H
    | H : (_ =? _) = true |- _ => apply Z.eqb_eq in H
    | H : (_ =? _) = false |- _ => apply Z.eqb_neq in H
    end.

(** If what is left of a decoded text after the line feeds are removed
    is empty, every byte was a line feed. *)
Lemma decode_drop_newlines_nil (n : nat) :
  forall bs t, (length bs <= n)%nat ->
    decode bs = Some t -> drop_newlines t = [] -> Forall (eq 10) bs.
Proof.
  induction n as [|n IH]; intros bs t Hlen Hdec Hdrop.
  - destruct bs; [constructor | simpl in Hlen; lia].
  - destruct bs as [|b0 r0]; [constructor|].
    simpl in Hlen. simpl in Hdec.
    destruct (between 0 127 b0) eqn:E0.
    + destruct (decode r0) as [t0|] eqn:D0; [|discriminate].
      injection Hdec as <-.
      apply drop_newlines_nil_inv in Hdrop as [-> Hdrop].
      constructor; [reflexivity|].
      apply (IH r0 t0); [lia | exact D0 | exact Hdrop].
    + exfalso. unfold between, cont in *.
      destruct r0 as [|b1 r1]; [discriminate|].
      destruct ((194 <=? b0) && (b0 <=? 223)) eqn:E1.
      { destruct ((128 <=? b1) && (b1 <=? 191)) eqn:C1; [|discriminate].
        destruct (decode r1) as [t1|]; [|discriminate].
        injection Hdec as <-.
        apply drop_newlines_nil_inv in Hdrop as [Hc _].
        bounds. lia. }
      destruct r1 as [|b2 r2]; [discriminate|].
      destruct ((224 <=? b0) && (b0 <=? 239)) eqn:E2.
      { destruct (_ && _) eqn:C2 in Hdec; [|discriminate].
        destruct (decode r2) as [t2|]; [|discriminate].
        injection Hdec as <-.
        apply drop_newlines_nil_inv in Hdrop as [Hc _].
        destruct (b0 =? 224) eqn:B224; [|destruct (b0 =? 237) eqn:B237];
          bounds; lia. }
      destruct r2 as [|b3 r3]; [discriminate|].
      destruct ((240 <=? b0) && (b0 <=? 244)) eqn:E3; [|discriminate].
      destruct (_ && _) eqn:C3 in Hdec; [|discriminate].
      destruct (decode r3) as [t3|]; [|discriminate].
      injection Hdec as <-.
      apply drop_newlines_nil_inv in Hdrop as [Hc _].
      destruct (b0 =? 240) eqn:B240; [|destruct (b0 =? 244) eqn:B244];
        bounds; lia.
Qed.

End Decoding.

Lemma run_command_outcome (command : list string) (W : World) (cp : CompletedProcess) :
  spawn W (journal W) command = Some cp ->
  fst (Bluez._run_command command W) =
    match Utf8.decode (stderr cp) with
    | None => Raise UnicodeDecodeError
    | Some decoded =>
        match Utf8.drop_newlines decoded with
        | [] => Ok cp
        | c :: t => Raise (CommandError (c :: t))
        end
    end
  /\ snd (Bluez._run_command command W) = record_effect (Ran command) W.
Proof.
  intros Hspawn.
  unfold Bluez._run_command, bind, subprocess_run. rewrite Hspawn.
  destruct (Utf8.decode (stderr cp)) as [decoded|]; [|split; reflexivity].
  destruct (Utf8.drop_newlines decoded); split; reflexivity.
Qed.

Lemma run_command_quiet (command : list string) (W : World) (cp : CompletedProcess) :
  spawn W (journal W) command = Some cp ->
  quiet cp ->
  Bluez._run_command command W = (Ok cp, record_effect (Ran command) W).
Proof.
  intros Hspawn Hq.
  destruct (run_command_outcome command W cp Hspawn) as [Hr Hw].
  rewrite (decode_line_feeds _ Hq), (drop_newlines_line_feeds _ Hq) in Hr.
  destruct (Bluez._run_command command W) as [r W']. simpl in *. congruence.
Qed.

(** ** Address replacement *)

Lemma add_journal_nil (W : World) : add_journal W [] = W.
Proof. destruct W; unfold add_journal; simpl. rewrite app_nil_r. reflexivity. Qed.

Lemma add_journal_app (W : World) (es fs' : list effect) :
  add_journal (add_journal W es) fs' = add_journal W (es ++ fs').
Proof. unfold add_journal; simpl. rewrite app_assoc. reflexivity. Qed.

Lemma helpers_quiet_add_journal (W : World) (es : list effect) :
  helpers_quiet W -> helpers_quiet (add_journal W es).
Proof. intros H. exact H. Qed.

Lemma replace_at_quiet (W : World) (adapter_paths addresses : list string)
    (i : nat) (path : string) (octets : list string) :
  helpers_quiet W ->
  adapter_paths !! i = Some path ->
  addresses !! i = Some (PyStr.join ":" octets) ->
  six_octets octets ->
  Bluez.replace_at adapter_paths addresses i W
  = (Ok tt, add_journal W (commands_for path octets)).
Proof.
  intros Hq Hp Ha [Hlen Hfree].
  assert (Hsplit : PyStr.split ":"%char (PyStr.join ":" octets) = octets).
  { apply split_join; [|exact Hfree]. destruct octets; [discriminate Hlen|discriminate]. }
  destruct octets as [|o0 [|o1 [|o2 [|o3 [|o4 [|o5 [|? ?]]]]]]]; try discriminate Hlen.
  unfold Bluez.replace_at, bind, lift, PyStr.item.
  rewrite Hp, adapter_id_of_total, Ha, Hsplit. cbn [lookup list_lookup].
  set (vendor := Bluez.vendor_command _ _).
  destruct (Hq (journal W) vendor) as (cp1 & Hs1 & Hq1).
  rewrite (run_command_quiet vendor W cp1 Hs1 Hq1).
  set (W1 := record_effect (Ran vendor) W).
  destruct (Hq (journal W1) (Bluez.reset_command (last_field path))) as (cp2 & Hs2 & Hq2).
  rewrite (run_command_quiet _ W1 cp2 Hs2 Hq2).
  unfold ret, add_journal, record_effect, commands_for, W1; simpl.
  rewrite <- app_assoc. reflexivity.
Qed.

Lemma lookup_map {A B : Type} (f : A -> B) (l : list A) (k : nat) (x : A) :
  l !! k = Some x -> List.map f l !! k = Some (f x).
Proof.
  revert k. induction l as [|a l IH]; intros [|k] H; try discriminate.
  - injection H as ->. reflexivity.
  - apply (IH k H).
Qed.

(** The loop over the adapters, from index [i] on. *)
Lemma for_range_replace_quiet (adapter_paths addresses : list string)
    (targets : list (string * list string)) :
  forall (i : nat) (W : World),
    helpers_quiet W ->
    (forall k path octets, targets !! k = Some (path, octets) ->
       adapter_paths !! (i + k)%nat = Some path
       /\ addresses !! (i + k)%nat = Some (PyStr.join ":" octets)
       /\ six_octets octets) ->
    for_range i (length targets) (Bluez.replace_at adapter_paths addresses) W
    = (Ok tt, add_journal W (List.flat_map (fun t => commands_for (fst t) (snd t)) targets)).
Proof.
  induction targets as [|[path octets] rest IH]; intros i W Hq Hat.
  - simpl. rewrite add_journal_nil. reflexivity.
  - destruct (Hat 0%nat path octets eq_refl) as (Hp & Ha & Hsix).
    rewrite Nat.add_0_r in Hp, Ha.
    cbn [length for_range]. unfold bind at 1.
    rewrite (replace_at_quiet W _ _ i path octets Hq Hp Ha Hsix).
    rewrite IH.
    + rewrite add_journal_app. reflexivity.
    + apply helpers_quiet_add_journal, Hq.
    + intros k p o Hk. specialize (Hat (S k) p o Hk).
      replace (S i + k)%nat with (i + S k)%nat by lia. exact Hat.
Qed.

(** C2. For adapter paths and MAC addresses of six colon-free octets each,
    on a host that has both helper binaries and whose helper commands
    leave their error output quiet, [replace_mac_addresses] succeeds and
    what it runs is, adapter by adapter, the vendor command
    [hcitool -i <id> cmd 0x3f 0x001] with the six octets as hexadecimal
    arguments in reversed order, and right after it [hciconfig <id> reset]
    for the same adapter id, the last field of the adapter path. *)
Theorem replace_mac_addresses_reversed_octets (W : World)
    (targets : list (string * list string)) :
  "hcitool" ∈ path_tools W ->
  "hciconfig" ∈ path_tools W ->
  helpers_quiet W ->
  Forall (fun t => six_octets (snd t)) targets ->
  Bluez.replace_mac_addresses
    (List.map fst targets) (List.map (fun t => PyStr.join ":" (snd t)) targets) W
  = (Ok tt,
     add_journal W
       (List.flat_map
          (fun t =>
             [Ran (Bluez.vendor_command (last_field (fst t))
                     (List.map Bluez.hex_arg (List.rev (snd t))));
              Ran (Bluez.reset_command (last_field (fst t)))])
          targets)).
Proof.
  intros Htool Hconfig Hq Hsix.
  unfold Bluez.replace_mac_addresses, bind, which.
  rewrite (bool_decide_eq_true_2 _ Htool). cbn [negb].
  rewrite (bool_decide_eq_true_2 _ Hconfig). cbn [negb].
  assert (Hcheck :
    (match List.map (fun t => PyStr.join ":" (snd t)) targets with
     | [] => ret tt
     | _ :: _ =>
         if bool_decide (length (List.map (fun t => PyStr.join ":" (snd t)) targets)
                         = length (List.map fst targets))
         then ret tt else raise AssertionError
     end) W = (Ok tt, W)).
  { destruct targets as [|t rest]; [reflexivity|].
    cbn [List.map]. rewrite bool_decide_eq_true_2; [reflexivity|].
    cbn [length]. rewrite !length_map. reflexivity. }
  rewrite Hcheck.
  replace (length (List.map fst targets)) with (length targets)
    by (symmetry; apply length_map).
  apply for_range_replace_quiet; [exact Hq|].
  intros k path octets Hk. cbn [Nat.add].
  repeat split.
  - apply (lookup_map fst _ _ _ Hk).
  - apply (lookup_map (fun t => PyStr.join ":" (snd t)) _ _ _ Hk).
  - rewrite Forall_lookup in Hsix. apply (Hsix k _ Hk).
  - rewrite Forall_lookup in Hsix. apply (Hsix k _ Hk).
Qed.

Lemma replace_mac_addresses_reversed_octets_witness :
  Bluez.replace_mac_addresses ["/org/bluez/hci0"] ["11:22:33:44:55:66"] quiet_host
  = (Ok tt,
     add_journal quiet_host
       [Ran ["hcitool"; "-i"; "hci0"; "cmd"; "0x3f"; "0x001";
             "0x66"; "0x55"; "0x44"; "0x33"; "0x22"; "0x11"];
        Ran ["hciconfig"; "hci0"; "reset"]]).
Proof.
  apply (replace_mac_addresses_reversed_octets quiet_host
           [("/org/bluez/hci0", ["11"; "22"; "33"; "44"; "55"; "66"])]).
  - apply list_elem_of_here.
  - apply list_elem_of_further, list_elem_of_here.
  - intros history command. exists (mkCompleted 0 [] []).
    split; [reflexivity | constructor].
  - repeat constructor.
Defined.

(** ** The command runner *)

(** C9, as stated, fails: the command wrote a byte to its error output
    and no exception is raised. *)
Lemma run_command_line_feed_passes :
  spawn line_feed_host (journal line_feed_host) ["hciconfig"; "hci0"; "reset"]
    = Some (mkCompleted 0 [] [10])
  /\ stderr (mkCompleted 0 [] [10]) ≠ []
  /\ ~ raises (fst (Bluez._run_command ["hciconfig"; "hci0"; "reset"] line_feed_host)).
Proof.
  split; [reflexivity|]. split; [discriminate|].
  vm_compute. intros H; exact H.
Qed.

(** C9, amended. For a command that was started, the runner raises if and
    only if the error output holds a byte other than a line feed: line
    feeds are removed before the text is tested.  The outcome depends on
    the error output alone: whatever the exit code and the standard output,
    two runs with the same error output both raise or both return. *)
Theorem run_command_raises_iff (W : World) (command : list string)
    (cp : CompletedProcess) :
  spawn W (journal W) command = Some cp ->
  (raises (fst (Bluez._run_command command W)) <-> Exists (fun b => b ≠ 10) (stderr cp))
  /\ (forall (W' : World) (cp' : CompletedProcess),
        spawn W' (journal W') command = Some cp' ->
        stderr cp' = stderr cp ->
        (raises (fst (Bluez._run_command command W'))
         <-> raises (fst (Bluez._run_command command W)))).
Proof.
  intros Hspawn.
  assert (Hiff : forall V c, spawn V (journal V) command = Some c ->
            (raises (fst (Bluez._run_command command V))
             <-> Exists (fun b => b ≠ 10) (stderr c))).
  { intros V c Hs.
    destruct (run_command_outcome command V c Hs) as [-> _].
    split.
    - intros Hraise.
      apply not_Forall_Exists; [intros b; apply _|].
      intros Hall.
      assert (Hlf : Forall (eq 10) (stderr c)).
      { eapply Forall_impl; [exact Hall|]. intros b Hb. simpl in Hb.
        destruct (decide (b = 10)) as [->|Hne]; [reflexivity | contradiction]. }
      rewrite (decode_line_feeds _ Hlf), (drop_newlines_line_feeds _ Hlf) in Hraise.
      exact Hraise.
    - intros Hex.
      destruct (Utf8.decode (stderr c)) as [decoded|] eqn:Hdec; [|exact I].
      destruct (Utf8.drop_newlines decoded) as [|x t] eqn:Hdrop; [|exact I].
      pose proof (decode_drop_newlines_nil _ _ _ (le_n _) Hdec Hdrop) as Hlf.
      apply Exists_exists in Hex as (b & Hin & Hb).
      rewrite Forall_forall in Hlf. specialize (Hlf b Hin). congruence. }
  split; [apply Hiff, Hspawn|].
  intros W' cp' Hs' Herr.
  rewrite (Hiff W' cp' Hs'), (Hiff W cp Hspawn), Herr. reflexivity.
Qed.

Lemma run_command_raises_iff_witness :
  spawn noisy_host (journal noisy_host) ["hciconfig"; "hci0"; "reset"]
    = Some (mkCompleted 0 [] [69])
  /\ raises (fst (Bluez._run_command ["hciconfig"; "hci0"; "reset"] noisy_host)).
Proof.
  split; [reflexivity|].
  apply (proj1 (run_command_raises_iff noisy_host ["hciconfig"; "hci0"; "reset"]
                  (mkCompleted 0 [] [69]) eq_refl)).
  apply Exists_cons_hd. discriminate.
Defined.

(** ** The plugin override *)

Lemma run_command_world (command : list string) (W : World) :
  snd (Bluez._run_command command W) = record_effect (Ran command) W.
Proof.
  unfold Bluez._run_command, bind, subprocess_run.
  destruct (spawn W (journal W) command) as [cp|]; [|reflexivity].
  destruct (Utf8.decode (stderr cp)) as [decoded|]; [|reflexivity].
  destruct (Utf8.drop_newlines decoded); reflexivity.
Qed.

Lemma reload_and_restart_keeps_fs (W : World) :
  fs (snd (Bluez.reload_and_restart W)) = fs W.
Proof.
  unfold Bluez.reload_and_restart, bind.
  pose proof (run_command_world ["systemctl"; "daemon-reload"] W) as H1.
  destruct (Bluez._run_command ["systemctl"; "daemon-reload"] W) as [r1 W1].
  simpl in H1. subst W1.
  destruct r1 as [cp1|e1]; [|reflexivity].
  set (W1 := record_effect _ W).
  pose proof (run_command_world ["systemctl"; "restart"; "bluetooth"] W1) as H2.
  destruct (Bluez._run_command ["systemctl"; "restart"; "bluetooth"] W1) as [r2 W2].
  simpl in H2. subst W2.
  destruct r2 as [cp2|e2]; reflexivity.
Qed.

Lemma toggle_on_present (W : World) (content : string) :
  fs W !! Bluez.override_path = Some (RegularFile content) ->
  Bluez.toggle_clean_bluez true W = (Ok tt, W).
Proof.
  intros Hfile.
  unfold Bluez.toggle_clean_bluez, bind, is_file. rewrite Hfile. reflexivity.
Qed.

Lemma toggle_off_absent (W : World) :
  fs W !! Bluez.override_path = None ->
  Bluez.toggle_clean_bluez false W = (Ok tt, W).
Proof.
  intros Habsent.
  unfold Bluez.toggle_clean_bluez, bind, except_FileNotFoundError, os_remove.
  rewrite Habsent. reflexivity.
Qed.

(** C5. [toggle_clean_bluez(True)] with the override file in place, and
    [toggle_clean_bluez(False)] with no override file, return at once:
    the host is left as it was, so nothing is written, no command is run
    (neither the unit reload nor the service restart) and no pause is
    made. *)
Theorem toggle_clean_bluez_idempotent (W : World) :
  (forall content : string,
     fs W !! Bluez.override_path = Some (RegularFile content) ->
     Bluez.toggle_clean_bluez true W = (Ok tt, W))
  /\ (fs W !! Bluez.override_path = None ->
      Bluez.toggle_clean_bluez false W = (Ok tt, W)).
Proof.
  split; [intros content; apply toggle_on_present | apply toggle_off_absent].
Qed.

Lemma toggle_clean_bluez_idempotent_witness :
  fs cleaned_host !! Bluez.override_path = Some (RegularFile "[Service]")
  /\ Bluez.toggle_clean_bluez true cleaned_host = (Ok tt, cleaned_host)
  /\ fs quiet_host !! Bluez.override_path = None
  /\ Bluez.toggle_clean_bluez false quiet_host = (Ok tt, quiet_host).
Proof.
  assert (Hfile : fs cleaned_host !! Bluez.override_path = Some (RegularFile "[Service]"))
    by (vm_compute; reflexivity).
  assert (Habsent : fs quiet_host !! Bluez.override_path = None)
    by (vm_compute; reflexivity).
  split; [exact Hfile|].
  split; [exact (proj1 (toggle_clean_bluez_idempotent cleaned_host) _ Hfile)|].
  split; [exact Habsent|].
  exact (proj2 (toggle_clean_bluez_idempotent quiet_host) Habsent).
Defined.

(** Otherwise the service is restarted: with the override in place,
    [toggle_clean_bluez(False)] removes it and runs both commands. *)
Lemma toggle_clean_bluez_off_restarts :
  let '(r, W') := Bluez.toggle_clean_bluez false cleaned_host in
  r = Ok tt
  /\ fs W' !! Bluez.override_path = None
  /\ journal W' = [Ran ["systemctl"; "daemon-reload"];
                   Ran ["systemctl"; "restart"; "bluetooth"];
                   Slept 500].
Proof. vm_compute. repeat split. Qed.

(** A successful [toggle_clean_bluez(True)] leaves the override file in
    place, so a second call changes nothing. *)
Lemma toggle_on_leaves_override (W W1 : World) :
  Bluez.toggle_clean_bluez true W = (Ok tt, W1) ->
  exists content, fs W1 !! Bluez.override_path = Some (RegularFile content).
Proof.
  unfold Bluez.toggle_clean_bluez, bind, is_file.
  destruct (fs W !! Bluez.override_path) as [[content|]|] eqn:Hov;
    [intros [= <-]; exists content; exact Hov | |].
  all: unfold read_text;
    destruct (fs W !! Bluez.service_path) as [[text|]|]; try discriminate;
    destruct (List.find _ _) as [line|]; try (unfold raise; discriminate);
    unfold ret, mkdir_p;
    destruct (fs W !! Bluez.override_dir) as [[?|]|]; try discriminate;
    try (destruct (privileged W) eqn:Hpriv; [|discriminate]);
    unfold write_text; simpl fs.
  all: try rewrite lookup_insert_ne by discriminate.
  all: rewrite ?Hov; try discriminate.
  all: cbn [privileged set_fs]; destruct (privileged W); try discriminate.
  all: match goal with
       | |- context [Bluez.reload_and_restart ?V] =>
           pose proof (reload_and_restart_keeps_fs V) as Hkeep;
           destruct (Bluez.reload_and_restart V) as [r V'];
           intros [= -> ->]; simpl in Hkeep; rewrite Hkeep;
           eexists; apply lookup_insert_eq
       end.
Qed.

(** X2. When [toggle_clean_bluez(True)] has succeeded, calling it again
    leaves the host as it is: nothing is written and the service is not
    restarted a second time. *)
Theorem toggle_on_twice (W W1 : World) :
  Bluez.toggle_clean_bluez true W = (Ok tt, W1) ->
  Bluez.toggle_clean_bluez true W1 = (Ok tt, W1).
Proof.
  intros H. destruct (toggle_on_leaves_override W W1 H) as [content Hfile].
  exact (toggle_on_present W1 content Hfile).
Qed.

Lemma toggle_on_twice_witness :
  fst (Bluez.toggle_clean_bluez true stock_host) = Ok tt
  /\ journal (snd (Bluez.toggle_clean_bluez true stock_host))
     = [Ran ["systemctl"; "daemon-reload"];
        Ran ["systemctl"; "restart"; "bluetooth"];
        Slept 500]
  /\ Bluez.toggle_clean_bluez true (snd (Bluez.toggle_clean_bluez true stock_host))
     = (Ok tt, snd (Bluez.toggle_clean_bluez true stock_host)).
Proof.
  assert (H1 : fst (Bluez.toggle_clean_bluez true stock_host) = Ok tt)
    by (vm_compute; reflexivity).
  split; [exact H1|].
  split; [vm_compute; reflexivity|].
  apply (toggle_on_twice stock_host).
  destruct (Bluez.toggle_clean_bluez true stock_host) as [r W1].
  cbn [fst snd] in *. rewrite H1. reflexivity.
Defined.

(** ** Missing helper binaries *)

(** X3. Without [hcitool] on the PATH, [replace_mac_addresses] raises
    before it does anything: no command is run, whatever the adapters and
    addresses. *)
Theorem replace_mac_addresses_needs_hcitool (W : World)
    (adapter_paths addresses : list string) :
  "hcitool" ∉ path_tools W ->
  Bluez.replace_mac_addresses adapter_paths addresses W
  = (Raise (Bluez.missing_tool "hcitool"), W).
Proof.
  intros Hmissing.
  unfold Bluez.replace_mac_addresses, bind, which.
  rewrite (bool_decide_eq_false_2 _ Hmissing). reflexivity.
Qed.

Lemma replace_mac_addresses_needs_hcitool_witness :
("hcitool" ∉ path_tools bare_host)
  /\ Bluez.replace_mac_addresses ["/org/bluez/hci0"] ["11:22:33:44:55:66"] bare_host
     = (Raise (Exception
          ("hcitool is not available on this system." +:+
           "If you can, please install this tool, as " +:+
           "it is required for proper functionality.")), bare_host).
Proof.
  assert (H : "hcitool" ∉ path_tools bare_host).
  { intros Hin. apply list_elem_of_singleton in Hin. discriminate. }
  split; [exact H|].
  exact (replace_mac_addresses_needs_hcitool bare_host _ _ H).
Defined.

(** ** Connected devices *)

(** The alias filter has no effect on the loop of [find_connected_devices]:
    both branches of the inner test append the path. *)
Lemma find_connected_devices_loop_any_filter (system_bus : Bluez.SystemBus)
    (alias_filter : option string) (devices : list string) :
  forall conn_devices,
    Bluez.find_connected_devices_loop system_bus alias_filter conn_devices devices
    = Bluez.find_connected_devices_loop system_bus None conn_devices devices.
Proof.
  induction devices as [|path rest IH]; intros conn_devices; [reflexivity|].
  cbn [Bluez.find_connected_devices_loop].
  destruct (Bluez.Get system_bus _ path _ "Connected") as [status|e]; [|reflexivity].
  cbn [rbind].
  destruct (Bluez.Get system_bus _ path _ "Alias") as [a|e]; [|reflexivity].
  cbn [rbind].
  destruct (Bluez.variant_upper a) as [device_alias|e]; [|reflexivity].
  cbn [rbind].
  destruct (Bluez.variant_truthy status); [|apply IH].
  rewrite !IH.
  destruct (match alias_filter with
            | Some "" | None => false
            | Some f => String.eqb device_alias (PyStr.upper f)
            end); reflexivity.
Qed.

Lemma find_connected_devices_any_filter (self : Bluez.BlueZ) (alias_filter : option string) :
  Bluez.find_connected_devices self alias_filter
  = Bluez.find_connected_devices self None.
Proof.
  unfold Bluez.find_connected_devices.
  destruct (Bluez.find_objects _ _ _) as [devices|e]; [|reflexivity].
  apply find_connected_devices_loop_any_filter.
Qed.

(** C1 at a failing input: asked for the connected devices whose alias is
    "Nintendo Switch", [find_connected_devices] also returns the path of
    the connected headset, whose alias does not match. *)
Theorem find_connected_devices_keeps_other_alias :
  Bluez.find_connected_devices
    (Bluez.mkBlueZ two_devices_bus "/org/bluez/hci0" "hci0") (Some "Nintendo Switch")
  = Ok [console_path; headset_path].
Proof. vm_compute. reflexivity. Qed.

(** The sibling search, [find_devices_by_alias], keeps the matching
    device only. *)
Lemma find_devices_by_alias_filters :
  Bluez.find_devices_by_alias two_devices_bus "nintendo switch"
  = Ok (["98:B6:E9:E6:88:7F"], [console_path]).
Proof. vm_compute. reflexivity. Qed.




(** ** Adapter selection *)

(** C8 at a failing input: no object of the control service has the
    adapter interface (the search finds none, by name or without), and
    the constructor given the path [/org/bluez/hci0] returns an object
    instead of raising. *)
Theorem BlueZ_init_accepts_missing_adapter :
  Bluez.find_object_path adapterless_bus Bluez.SERVICE_NAME Bluez.ADAPTER_INTERFACE None
    = Ok None
  /\ Bluez.find_object_path adapterless_bus Bluez.SERVICE_NAME Bluez.ADAPTER_INTERFACE
       (Some "/org/bluez/hci0") = Ok None
  /\ Bluez.BlueZ_init adapterless_bus (Some "/org/bluez/hci0")
     = Ok (Bluez.mkBlueZ adapterless_bus "/org/bluez/hci0" "hci0").
Proof. vm_compute. repeat split. Qed.

(** X1. Without a path, the search decides: when it finds no object with
    the adapter interface the constructor raises "Unable to find a
    bluetooth adapter". *)
Theorem BlueZ_init_search_fails (system_bus : Bluez.SystemBus) :
  Bluez.find_object_path system_bus Bluez.SERVICE_NAME Bluez.ADAPTER_INTERFACE None
    = Ok None ->
  Bluez.BlueZ_init system_bus None
  = Raise (Exception "Unable to find a bluetooth adapter").
Proof. intros H. unfold Bluez.BlueZ_init. rewrite H. reflexivity. Qed.

Lemma BlueZ_init_search_fails_witness :
  Bluez.find_object_path adapterless_bus Bluez.SERVICE_NAME Bluez.ADAPTER_INTERFACE None
    = Ok None
  /\ Bluez.BlueZ_init adapterless_bus None
     = Raise (Exception "Unable to find a bluetooth adapter").
Proof.
  split; [reflexivity|].
  exact (BlueZ_init_search_fails adapterless_bus eq_refl).
Defined.

(** With a path, the search is never made and that exception is never
    raised. *)
Lemma BlueZ_init_path_unchecked (system_bus : Bluez.SystemBus) (path : string) :
  Bluez.BlueZ_init system_bus (Some path)
  ≠ Raise (Exception "Unable to find a bluetooth adapter").
Proof.
  unfold Bluez.BlueZ_init, Bluez.get_object. cbn [rbind].
  rewrite adapter_id_of_total.
  destruct (Bluez.dict_get Bluez.SERVICE_NAME system_bus); discriminate.
Qed.

(** ** The record and playback loop *)

(** The copy made through [json.dumps] and [json.loads] has the content
    of the original. *)
Fixpoint json_copy_content (v : json) : json_copy v = v.
Proof.
  destruct v as [| | | | |items|members]; try reflexivity.
  - cbn [json_copy]. f_equal.
    induction items as [|x items IH]; [reflexivity|].
    cbn [List.map]. rewrite json_copy_content, IH. reflexivity.
  - cbn [json_copy]. f_equal.
    induction members as [|[k x] members IH]; [reflexivity|].
    cbn [List.map fst snd]. rewrite json_copy_content, IH. reflexivity.
Qed.

Lemma getitem_lookup (w : gmap string json) (key : string) (v : json) :
  w !! key = Some v -> getitem w key = Ok v.
Proof. intros H. unfold getitem. rewrite H. reflexivity. Qed.

Lemma play_all_no_append (l : list json) :
  existsb is_append (play_all l) = false.
Proof. induction l as [|x l IH]; [reflexivity | exact IH]. Qed.

Lemma transmissions_app (l1 l2 : list action) :
  transmissions (l1 ++ l2) = transmissions l1 ++ transmissions l2.
Proof.
  induction l1 as [|a l1 IH]; [reflexivity|].
  destruct a; cbn [transmissions app]; rewrite ?IH; reflexivity.
Qed.

Lemma transmissions_play_all (l : list json) :
  transmissions (play_all l) = l.
Proof.
  induction l as [|x l IH]; [reflexivity|].
  cbn [play_all List.flat_map app transmissions]. f_equal. exact IH.
Qed.

(** A pass with [playing] set: the recorded sequence is played and the
    dictionary is left as it was. *)
Lemma loop_body_playing (w : gmap string json) (playing : json) (recorded : list json) :
  w !! "playing" = Some playing ->
  truthy playing = true ->
  w !! "input_list" = Some (JArr recorded) ->
  loop_body w = (play_all recorded ++ [Print "又一轮循环完成"; Pause 5000], Ok w).
Proof.
  intros Hp Ht Hl. unfold loop_body.
  rewrite (getitem_lookup _ _ _ Hp), Ht, (getitem_lookup _ _ _ Hl).
  reflexivity.
Qed.

(** A pass with [playing] unset and [recording] set: the packet is sent
    and a copy is put at the end of the recorded sequence. *)
Lemma loop_body_recording (w : gmap string json)
    (playing recording packet : json) (recorded : list json) :
  w !! "playing" = Some playing ->
  truthy playing = false ->
  w !! "recording" = Some recording ->
  truthy recording = true ->
  w !! "packet" = Some packet ->
  w !! "input_list" = Some (JArr recorded) ->
  loop_body w
  = ([Send packet; Append packet; Pause 1],
     Ok (<["input_list" := JArr (recorded ++ [packet])]> w)).
Proof.
  intros Hp Hpf Hr Hrt Hk Hl. unfold loop_body.
  rewrite (getitem_lookup _ _ _ Hp), Hpf, (getitem_lookup _ _ _ Hk),
    (getitem_lookup _ _ _ Hr), Hrt, (getitem_lookup _ _ _ Hl).
  rewrite json_copy_content. reflexivity.
Qed.

(** *** Clearing the recorded sequence *)

(** C3, as stated, fails: [clear_input_list] is called while [playing]
    is true, the recorded sequence is emptied, and [playing] is true
    afterwards. *)
Lemma clear_input_list_keeps_playing :
  getitem playing_wrapper "playing" = Ok (JBool true)
  /\ getitem (snd (clear_input_list playing_wrapper)) "input_list" = Ok (JArr [])
  /\ getitem (snd (clear_input_list playing_wrapper)) "playing" = Ok (JBool true)
  /\ getitem (snd (clear_input_list playing_wrapper)) "playing" ≠ Ok (JBool false).
Proof.
  assert (H : getitem (snd (clear_input_list playing_wrapper)) "playing" = Ok (JBool true))
    by (vm_compute; reflexivity).
  repeat split; try (vm_compute; reflexivity); try exact H.
  rewrite H. discriminate.
Qed.

(** C3, amended. [clear_input_list] answers "ok", makes the recorded
    sequence the empty list, and leaves every other entry of the
    dictionary, [playing] among them, as it was. *)
Theorem clear_input_list_only_empties (w : gmap string json) :
  fst (clear_input_list w) = Ok (text "ok")
  /\ snd (clear_input_list w) !! "input_list" = Some (JArr [])
  /\ (forall key : string,
        key ≠ "input_list" -> snd (clear_input_list w) !! key = w !! key)
  /\ getitem (snd (clear_input_list w)) "playing" = getitem w "playing".
Proof.
  unfold clear_input_list. cbn [fst snd].
  split; [reflexivity|].
  split; [apply lookup_insert_eq|].
  split.
  - intros key Hkey. apply lookup_insert_ne. congruence.
  - unfold getitem. rewrite lookup_insert_ne by discriminate. reflexivity.
Qed.

(** *** One pass of the loop *)

(** C4. In no pass of the loop, whatever the dictionary holds, are a
    recorded packet played and a packet appended to the recorded sequence.
    When [playing] is true nothing is appended and the dictionary is left
    as it was, whatever [recording] is; when [playing] is false nothing is
    played. *)
Theorem loop_body_plays_or_appends (w : gmap string json) :
  existsb is_play (fst (loop_body w)) && existsb is_append (fst (loop_body w)) = false
  /\ (forall playing : json,
        w !! "playing" = Some playing -> truthy playing = true ->
        existsb is_append (fst (loop_body w)) = false
        /\ (forall w' : gmap string json, snd (loop_body w) = Ok w' -> w' = w))
  /\ (forall playing : json,
        w !! "playing" = Some playing -> truthy playing = false ->
        existsb is_play (fst (loop_body w)) = false).
Proof.
  assert (Hplaying : forall playing : json,
            w !! "playing" = Some playing -> truthy playing = true ->
            existsb is_append (fst (loop_body w)) = false
            /\ (forall w' : gmap string json, snd (loop_body w) = Ok w' -> w' = w)).
  { intros playing Hp Ht. unfold loop_body.
    rewrite (getitem_lookup _ _ _ Hp), Ht.
    destruct (rbind (getitem w "input_list") iterate) as [recorded|e]; cbn [fst snd].
    - split; [|intros w' [= <-]; reflexivity].
      rewrite existsb_app, play_all_no_append. reflexivity.
    - split; [reflexivity | discriminate]. }
  assert (Hdirect : forall playing : json,
            w !! "playing" = Some playing -> truthy playing = false ->
            existsb is_play (fst (loop_body w)) = false).
  { intros playing Hp Hf. unfold loop_body.
    rewrite (getitem_lookup _ _ _ Hp), Hf.
    destruct (getitem w "packet") as [packet|e]; [|reflexivity].
    destruct (getitem w "recording") as [recording|e]; [|reflexivity].
    destruct (truthy recording); [|reflexivity].
    destruct (getitem w "input_list") as [[| | | | |recorded|]|e]; reflexivity. }
  split; [|split; assumption].
  destruct (w !! "playing") as [playing|] eqn:Hp.
  - destruct (truthy playing) eqn:Ht.
    + rewrite (proj1 (Hplaying playing eq_refl Ht)). apply andb_false_r.
    + rewrite (Hdirect playing eq_refl Ht). reflexivity.
  - unfold loop_body, getitem. rewrite Hp. reflexivity.
Qed.

Lemma loop_body_plays_or_appends_witness :
  both_flags_wrapper !! "playing" = Some (JBool true)
  /\ both_flags_wrapper !! "recording" = Some (JBool true)
  /\ existsb is_play (fst (loop_body both_flags_wrapper)) = true
  /\ existsb is_append (fst (loop_body both_flags_wrapper)) = false.
Proof.
  assert (Hp : both_flags_wrapper !! "playing" = Some (JBool true))
    by (vm_compute; reflexivity).
  split; [exact Hp|].
  split; [vm_compute; reflexivity|].
  split; [vm_compute; reflexivity|].
  exact (proj1 (proj1 (proj2 (loop_body_plays_or_appends both_flags_wrapper))
                  (JBool true) Hp eq_refl)).
Defined.

(** *** Recording, then playback *)

Lemma steps_app (s : system) (evs1 evs2 : list event) :
  steps s (evs1 ++ evs2) = steps (steps s evs1) evs2.
Proof. unfold steps. apply fold_left_app. Qed.

Lemma recording_session_records (packets : list json) :
  forall (s : system) (recording playing : json) (earlier : list json),
    main_thread s = Running ->
    wrapper s !! "recording" = Some recording -> truthy recording = true ->
    wrapper s !! "playing" = Some playing -> truthy playing = false ->
    wrapper s !! "input_list" = Some (JArr earlier) ->
    main_thread (steps s (recording_session packets)) = Running
    /\ wrapper (steps s (recording_session packets)) !! "recording" = Some recording
    /\ wrapper (steps s (recording_session packets)) !! "playing" = Some playing
    /\ wrapper (steps s (recording_session packets)) !! "input_list"
       = Some (JArr (earlier ++ packets))
    /\ output (steps s (recording_session packets))
       = output s ++ List.flat_map (fun p => [Send p; Append p; Pause 1]) packets.
Proof.
  induction packets as [|p packets IH];
    intros s recording playing earlier Hrun Hr Hrt Hp Hpf Hl.
  - cbn. rewrite !app_nil_r. auto.
  - change (recording_session (p :: packets))
      with ([Served (POST_gamepad p); Pass] ++ recording_session packets).
    rewrite steps_app.
    set (s1 := steps s [Served (POST_gamepad p); Pass]).
    assert (Hbody : loop_body (<["packet" := p]> (wrapper s))
              = ([Send p; Append p; Pause 1],
                 Ok (<["input_list" := JArr (earlier ++ [p])]>
                       (<["packet" := p]> (wrapper s))))).
    { apply (loop_body_recording _ playing recording p earlier); try assumption.
      - rewrite lookup_insert_ne by discriminate. exact Hp.
      - rewrite lookup_insert_ne by discriminate. exact Hr.
      - apply lookup_insert_eq.
      - rewrite lookup_insert_ne by discriminate. exact Hl. }
    assert (Hs1 : s1 = mkSystem
                         (<["input_list" := JArr (earlier ++ [p])]>
                            (<["packet" := p]> (wrapper s)))
                         Running (output s ++ [Send p; Append p; Pause 1])
                         (replies s ++ [Ok (jsonify (JObj [("message",
                            JStr "Received your POST request!")]))])).
    { unfold s1, steps. cbn [List.fold_left step route get_gamepad].
      cbn [main_thread wrapper output replies]. rewrite Hrun, Hbody. reflexivity. }
    destruct (IH s1 recording playing (earlier ++ [p])) as (H1 & H2 & H3 & H4 & H5).
    + rewrite Hs1. reflexivity.
    + rewrite Hs1. cbn [wrapper]. rewrite !lookup_insert_ne by discriminate. exact Hr.
    + exact Hrt.
    + rewrite Hs1. cbn [wrapper]. rewrite !lookup_insert_ne by discriminate. exact Hp.
    + exact Hpf.
    + rewrite Hs1. cbn [wrapper]. apply lookup_insert_eq.
    + repeat split; try assumption.
      * rewrite H4, <- app_assoc. reflexivity.
      * rewrite H5, Hs1. cbn [output List.flat_map]. rewrite <- app_assoc. reflexivity.
Qed.

(** C6. Let the loop be running with [recording] true, [playing] false
    and a recorded sequence [earlier].  After a recording session that
    sends the packets [packets], the recorded sequence is [earlier]
    followed by [packets]; and when playback is then switched on, the next
    pass assigns to the controller input exactly these recorded packets, in
    the order they were recorded and equal to them in content. *)
Theorem playback_replays_recording (s : system) (recording playing : json)
    (earlier packets : list json) :
  main_thread s = Running ->
  wrapper s !! "recording" = Some recording -> truthy recording = true ->
  wrapper s !! "playing" = Some playing -> truthy playing = false ->
  wrapper s !! "input_list" = Some (JArr earlier) ->
  wrapper (steps s (recording_session packets)) !! "input_list"
    = Some (JArr (earlier ++ packets))
  /\ transmissions (output (steps s (recording_session packets)))
     = transmissions (output s) ++ packets
  /\ output (steps s (recording_session packets ++ playback_pass))
     = output (steps s (recording_session packets))
       ++ List.flat_map (fun recorded => [Play recorded; Pause 1]) (earlier ++ packets)
       ++ [Print "又一轮循环完成"; Pause 5000]
  /\ transmissions (output (steps s (recording_session packets ++ playback_pass)))
     = transmissions (output (steps s (recording_session packets)))
       ++ earlier ++ packets.
Proof.
  intros Hrun Hr Hrt Hp Hpf Hl.
  destruct (recording_session_records packets s recording playing earlier
              Hrun Hr Hrt Hp Hpf Hl) as (H1 & H2 & H3 & H4 & H5).
  set (s1 := steps s (recording_session packets)) in *.
  assert (Hout : output (steps s1 playback_pass)
                 = output s1 ++ play_all (earlier ++ packets)
                   ++ [Print "又一轮循环完成"; Pause 5000]).
  { unfold playback_pass, steps.
    cbn [List.fold_left step route set_playing main_thread wrapper output replies].
    rewrite H1.
    rewrite (loop_body_playing _ (JBool true) (earlier ++ packets)).
    - reflexivity.
    - apply lookup_insert_eq.
    - reflexivity.
    - rewrite lookup_insert_ne by discriminate. exact H4. }
  split; [exact H4|].
  split.
  { rewrite H5, transmissions_app. f_equal.
    clear. induction packets as [|p packets IH]; [reflexivity|].
    cbn [List.flat_map app transmissions]. f_equal. exact IH. }
  rewrite steps_app. fold s1.
  split; [exact Hout|].
  rewrite Hout, !transmissions_app, transmissions_play_all.
  cbn [transmissions]. rewrite app_nil_r. reflexivity.
Qed.

Lemma playback_replays_recording_witness :
  main_thread connected_recording = Running
  /\ wrapper connected_recording !! "recording" = Some (JBool true)
  /\ wrapper connected_recording !! "playing" = Some (JBool false)
  /\ wrapper connected_recording !! "input_list" = Some (JArr [])
  /\ transmissions
       (output (steps connected_recording (recording_session [P1; P2; P3] ++ playback_pass)))
     = transmissions (output (steps connected_recording (recording_session [P1; P2; P3])))
       ++ [P1; P2; P3].
Proof.
  assert (Hr : wrapper connected_recording !! "recording" = Some (JBool true))
    by (vm_compute; reflexivity).
  assert (Hp : wrapper connected_recording !! "playing" = Some (JBool false))
    by (vm_compute; reflexivity).
  assert (Hl : wrapper connected_recording !! "input_list" = Some (JArr []))
    by (vm_compute; reflexivity).
  split; [reflexivity|].
  split; [exact Hr|]. split; [exact Hp|]. split; [exact Hl|].
  exact (proj2 (proj2 (proj2
    (playback_replays_recording connected_recording (JBool true) (JBool false)
       [] [P1; P2; P3] eq_refl Hr eq_refl Hp eq_refl Hl)))).
Defined.

(** *** Playback of an empty sequence *)

Lemma steps_idle (n : nat) :
  forall (s : system) (playing : json),
    main_thread s = Running ->
    wrapper s !! "playing" = Some playing -> truthy playing = true ->
    wrapper s !! "input_list" = Some (JArr []) ->
    steps s (replicate n Pass)
    = mkSystem (wrapper s) Running
        (output s ++ concat (replicate n idle_pass)) (replies s).
Proof.
  induction n as [|n IH]; intros s playing Hrun Hp Ht Hl.
  - cbn. rewrite app_nil_r. destruct s; cbn in *. subst. reflexivity.
  - cbn [replicate]. unfold steps. cbn [List.fold_left step]. fold (steps).
    rewrite Hrun, (loop_body_playing _ playing [] Hp Ht Hl).
    cbn [play_all List.flat_map app].
    change (List.fold_left step (replicate n Pass) ?x) with (steps x (replicate n Pass)).
    rewrite (IH _ playing); cbn [main_thread wrapper output replies]; try assumption;
      try reflexivity.
    rewrite <- app_assoc. reflexivity.
Qed.

Lemma transmissions_idle (n : nat) :
  transmissions (concat (replicate n idle_pass)) = [].
Proof. induction n as [|n IH]; [reflexivity | exact IH]. Qed.

(** C7. With [playing] true and an empty recorded sequence, any number
    of passes of the loop leave the thread running (no exception ends
    it) and the dictionary as it was; each pass only prints its message
    and pauses, and nothing is assigned to the controller input. *)
Theorem playback_of_empty_sequence_idles (s : system) (playing : json) (n : nat) :
  main_thread s = Running ->
  wrapper s !! "playing" = Some playing -> truthy playing = true ->
  wrapper s !! "input_list" = Some (JArr []) ->
  main_thread (steps s (replicate n Pass)) = Running
  /\ wrapper (steps s (replicate n Pass)) = wrapper s
  /\ output (steps s (replicate n Pass))
     = output s ++ concat (replicate n [Print "又一轮循环完成"; Pause 5000])
  /\ transmissions (output (steps s (replicate n Pass))) = transmissions (output s).
Proof.
  intros Hrun Hp Ht Hl.
  rewrite (steps_idle n s playing Hrun Hp Ht Hl).
  cbn [main_thread wrapper output].
  repeat split.
  rewrite transmissions_app, transmissions_idle, app_nil_r. reflexivity.
Qed.

Lemma playback_of_empty_sequence_idles_witness :
  main_thread connected_playing = Running
  /\ wrapper connected_playing !! "playing" = Some (JBool true)
  /\ wrapper connected_playing !! "input_list" = Some (JArr [])
  /\ main_thread (steps connected_playing (replicate 3 Pass)) = Running
  /\ transmissions (output (steps connected_playing (replicate 3 Pass)))
     = transmissions (output connected_playing).
Proof.
  assert (Hp : wrapper connected_playing !! "playing" = Some (JBool true))
    by (vm_compute; reflexivity).
  assert (Hl : wrapper connected_playing !! "input_list" = Some (JArr []))
    by (vm_compute; reflexivity).
  split; [reflexivity|]. split; [exact Hp|]. split; [exact Hl|].
  pose proof (playback_of_empty_sequence_idles connected_playing (JBool true) 3
                eq_refl Hp eq_refl Hl) as (H1 & _ & _ & H4).
  split; [exact H1 | exact H4].
Defined.

(** *** Reading the recorded sequence before the connection *)

Lemma step_keeps_input_list_absent (s : system) (ev : event) :
  main_thread s = Connecting ->
  wrapper s !! "input_list" = None ->
  creates_input_list ev = false ->
  main_thread (step s ev) = Connecting
  /\ wrapper (step s ev) !! "input_list" = None.
Proof.
  intros Hc Habs Hev.
  destruct ev as [r|server_state|].
  - destruct r; try discriminate Hev; cbn; rewrite ?lookup_insert_ne by discriminate;
      auto.
  - cbn [creates_input_list] in Hev. cbn [step]. rewrite Hc, Hev. auto.
  - cbn [step]. rewrite Hc. auto.
Qed.

Lemma steps_keep_input_list_absent (evs : list event) :
  forall s : system,
    main_thread s = Connecting ->
    wrapper s !! "input_list" = None ->
    forallb (fun ev => negb (creates_input_list ev)) evs = true ->
    main_thread (steps s evs) = Connecting
    /\ wrapper (steps s evs) !! "input_list" = None.
Proof.
  induction evs as [|ev evs IH]; intros s Hc Habs Hq; [auto|].
  cbn [forallb] in Hq. apply andb_true_iff in Hq as [Hev Hq].
  apply negb_true_iff in Hev.
  destruct (step_keeps_input_list_absent s ev Hc Habs Hev) as [Hc' Habs'].
  apply (IH (step s ev) Hc' Habs' Hq).
Qed.

(** C10. From the start of the program, as long as no request has set or
    cleared the recorded sequence and the connecting loop has not seen the
    state "connected", the dictionary has no [input_list] entry and the
    view [get_input_list] raises [KeyError]; once the loop sees
    "connected" the entry is there and the view answers the empty list. *)
Theorem get_input_list_before_connection (DIRECT_INPUT_IDLE_PACKET : json)
    (evs : list event) :
  forallb (fun ev => negb (creates_input_list ev)) evs = true ->
  main_thread (steps (start DIRECT_INPUT_IDLE_PACKET) evs) = Connecting
  /\ fst (get_input_list (wrapper (steps (start DIRECT_INPUT_IDLE_PACKET) evs)))
     = Raise (KeyError "input_list")
  /\ fst (get_input_list
            (wrapper (steps (start DIRECT_INPUT_IDLE_PACKET) (evs ++ [Polled "connected"]))))
     = Ok (jsonify (JArr [])).
Proof.
  intros Hq.
  destruct (steps_keep_input_list_absent evs (start DIRECT_INPUT_IDLE_PACKET))
    as [Hc Habs]; [reflexivity | reflexivity | exact Hq |].
  split; [exact Hc|]. split.
  - unfold get_input_list, getitem. cbn [fst]. rewrite Habs. reflexivity.
  - rewrite steps_app. unfold steps at 1. cbn [List.fold_left step].
    rewrite Hc. cbn [String.eqb Ascii.eqb Bool.eqb wrapper].
    unfold get_input_list, getitem. cbn [fst].
    rewrite lookup_insert_eq. reflexivity.
Qed.

Lemma get_input_list_before_connection_witness :
  forallb (fun ev => negb (creates_input_list ev)) before_connection = true
  /\ fst (get_input_list (wrapper (steps (start (JObj [])) before_connection)))
     = Raise (KeyError "input_list").
Proof.
  split; [reflexivity|].
  exact (proj1 (proj2
    (get_input_list_before_connection (JObj []) before_connection eq_refl))).
Defined.

(** * Further properties of the adapter layer *)

(** ** Searching the managed objects *)

Lemma find_object_path_in_first (objs : Bluez.managed_objects) (interface_name : string) :
  Bluez.find_object_path_in objs interface_name None
  = Ok (head (List.map fst
                (List.filter (fun o => match Bluez.dict_get interface_name (snd o) with
                                       | None => false
                                       | Some _ => true
                                       end) objs))).
Proof.
  induction objs as [|[path ifaces] rest IH]; [reflexivity|].
  cbn [Bluez.find_object_path_in List.filter snd].
  destruct (Bluez.dict_get interface_name ifaces); [reflexivity | exact IH].
Qed.

(** X5. Asked for no particular object, [find_object_path] gives the
    first of the paths [find_objects] lists for the same service and
    interface, [None] when that list is empty, and fails as
    [find_objects] does. *)
Theorem find_object_path_is_first_object (system_bus : Bluez.SystemBus)
    (service_name interface_name : string) :
  Bluez.find_object_path system_bus service_name interface_name None
  = rbind (Bluez.find_objects system_bus service_name interface_name)
          (fun paths => Ok (head paths)).
Proof.
  unfold Bluez.find_object_path, Bluez.find_objects.
  destruct (Bluez.GetManagedObjects system_bus service_name) as [objs|e]; [|reflexivity].
  cbn [rbind]. apply find_object_path_in_first.
Qed.

Lemma find_object_path_in_named (objs : Bluez.managed_objects)
    (interface_name name path : string) :
  name ≠ "" ->
  Bluez.find_object_path_in objs interface_name (Some name) = Ok (Some path) ->
  exists ifaces props,
    (path, ifaces) ∈ objs
    /\ Bluez.dict_get interface_name ifaces = Some props
    /\ (Bluez.dict_get "Address" props = Some (Bluez.VString name)
        \/ Bluez.endswith name path = true).
Proof.
  intros Hname.
  induction objs as [|[p ifaces] rest IH]; [discriminate|].
  cbn [Bluez.find_object_path_in].
  destruct (Bluez.dict_get interface_name ifaces) as [props|] eqn:Hi.
  - destruct name as [|c name']; [congruence|].
    destruct (Bluez.dict_get "Address" props) as [address|] eqn:Ha; [|discriminate].
    destruct (_ || _) eqn:Hmatch.
    + intros [= ->]. exists ifaces, props.
      split; [apply list_elem_of_here|]. split; [exact Hi|].
      apply orb_true_iff in Hmatch as [Heq|Hend]; [left | right; exact Hend].
      destruct address as [| a |]; try discriminate.
      apply String.eqb_eq in Heq. subst a. exact Ha.
    + intros H. destruct (IH H) as (ifaces' & props' & Hin & Rest).
      exists ifaces', props'. split; [apply list_elem_of_further, Hin | exact Rest].
  - intros H. destruct (IH H) as (ifaces' & props' & Hin & Rest).
    exists ifaces', props'. split; [apply list_elem_of_further, Hin | exact Rest].
Qed.

(** X6. When [find_object_path] is asked for an object by name and
    returns a path, that path is a managed object of the service that has
    the interface, and either its [Address] is the name or the path ends
    with the name. *)
Theorem find_object_path_named_sound (system_bus : Bluez.SystemBus)
    (service_name interface_name name path : string) :
  name ≠ "" ->
  Bluez.find_object_path system_bus service_name interface_name (Some name)
    = Ok (Some path) ->
  exists objs ifaces props,
    Bluez.GetManagedObjects system_bus service_name = Ok objs
    /\ (path, ifaces) ∈ objs
    /\ Bluez.dict_get interface_name ifaces = Some props
    /\ (Bluez.dict_get "Address" props = Some (Bluez.VString name)
        \/ Bluez.endswith name path = true).
Proof.
  intros Hname. unfold Bluez.find_object_path.
  destruct (Bluez.GetManagedObjects system_bus service_name) as [objs|e]; [|discriminate].
  cbn [rbind]. intros H.
  destruct (find_object_path_in_named objs interface_name name path Hname H)
    as (ifaces & props & Hin & Rest).
  exists objs, ifaces, props. auto.
Qed.

Lemma find_object_path_named_sound_witness :
  "hci1" ≠ ""
  /\ Bluez.find_object_path two_adapters_bus Bluez.SERVICE_NAME Bluez.ADAPTER_INTERFACE
       (Some "hci1") = Ok (Some "/org/bluez/hci1")
  /\ exists objs ifaces props,
       Bluez.GetManagedObjects two_adapters_bus Bluez.SERVICE_NAME = Ok objs
       /\ ("/org/bluez/hci1", ifaces) ∈ objs
       /\ Bluez.dict_get Bluez.ADAPTER_INTERFACE ifaces = Some props
       /\ (Bluez.dict_get "Address" props = Some (Bluez.VString "hci1")
           \/ Bluez.endswith "hci1" "/org/bluez/hci1" = true).
Proof.
  split; [discriminate|]. split; [reflexivity|].
  apply (find_object_path_named_sound two_adapters_bus Bluez.SERVICE_NAME
           Bluez.ADAPTER_INTERFACE "hci1" "/org/bluez/hci1");
    [discriminate | reflexivity].
Defined.

(** ** Devices by connection state and by alias *)

Lemma find_connected_devices_loop_unfiltered (system_bus : Bluez.SystemBus)
    (devices : list string) :
  forall conn_devices found,
    Bluez.find_connected_devices_loop system_bus None conn_devices devices = Ok found ->
    found = conn_devices ++ List.filter (is_connected system_bus) devices.
Proof.
  induction devices as [|path rest IH]; intros conn_devices found.
  - cbn. intros [= <-]. rewrite app_nil_r. reflexivity.
  - cbn [Bluez.find_connected_devices_loop List.filter]. unfold is_connected at 1.
    destruct (Bluez.Get system_bus _ path _ "Connected") as [status|e]; [|discriminate].
    cbn [rbind].
    destruct (Bluez.Get system_bus _ path _ "Alias") as [a|e]; [|discriminate].
    cbn [rbind].
    destruct (Bluez.variant_upper a) as [device_alias|e]; [|discriminate].
    cbn [rbind].
    destruct (Bluez.variant_truthy status); intros H; apply IH in H; subst found.
    + rewrite <- app_assoc. reflexivity.
    + reflexivity.
Qed.

(** X7. Called with no alias filter, [find_connected_devices], when it
    returns, returns exactly the device paths whose [Connected] property
    is true, in the order [find_objects] lists the devices. *)
Theorem find_connected_devices_unfiltered (self : Bluez.BlueZ)
    (devices found : list string) :
  Bluez.find_objects (Bluez.bus self) Bluez.SERVICE_NAME Bluez.DEVICE_INTERFACE
    = Ok devices ->
  Bluez.find_connected_devices self None = Ok found ->
  found = List.filter (is_connected (Bluez.bus self)) devices.
Proof.
  intros Hdev. unfold Bluez.find_connected_devices. rewrite Hdev. cbn [rbind].
  apply find_connected_devices_loop_unfiltered.
Qed.






Lemma find_connected_devices_unfiltered_witness :
  Bluez.find_objects mixed_bus Bluez.SERVICE_NAME Bluez.DEVICE_INTERFACE
    = Ok [controller_path; console_path]
  /\ Bluez.find_connected_devices (Bluez.mkBlueZ mixed_bus "/org/bluez/hci0" "hci0") None
     = Ok [console_path]
  /\ [console_path]
     = List.filter (is_connected mixed_bus) [controller_path; console_path].
Proof.
  split; [reflexivity|]. split; [reflexivity|].
  exact (find_connected_devices_unfiltered
           (Bluez.mkBlueZ mixed_bus "/org/bluez/hci0" "hci0")
           [controller_path; console_path] [console_path] eq_refl eq_refl).
Defined.


(** ** The adapter object *)

(** X9. Built without a path, the [BlueZ] object takes the first adapter
    the control service lists, and its id is the last field of that
    path. *)
Theorem BlueZ_init_takes_first_adapter (system_bus : Bluez.SystemBus)
    (path : string) (others : list string) :
  Bluez.find_objects system_bus Bluez.SERVICE_NAME Bluez.ADAPTER_INTERFACE
    = Ok (path :: others) ->
  Bluez.BlueZ_init system_bus None = Ok (Bluez.mkBlueZ system_bus path (last_field path)).
Proof.
  intros Hobjs. unfold Bluez.BlueZ_init.
  assert (Hfirst : Bluez.find_object_path system_bus Bluez.SERVICE_NAME
                     Bluez.ADAPTER_INTERFACE None = Ok (Some path)).
  { unfold Bluez.find_object_path.
    unfold Bluez.find_objects in Hobjs.
    destruct (Bluez.GetManagedObjects system_bus Bluez.SERVICE_NAME) as [objs|e];
      [|discriminate].
    cbn [rbind] in *. rewrite find_object_path_in_first.
    injection Hobjs as ->. reflexivity. }
  rewrite Hfirst. cbn [rbind].
  unfold Bluez.get_object.
  unfold Bluez.find_objects, Bluez.GetManagedObjects in Hobjs.
  destruct (Bluez.dict_get Bluez.SERVICE_NAME system_bus); [|discriminate].
  cbn [rbind]. rewrite adapter_id_of_total. reflexivity.
Qed.

Lemma BlueZ_init_takes_first_adapter_witness :
  Bluez.find_objects two_adapters_bus Bluez.SERVICE_NAME Bluez.ADAPTER_INTERFACE
    = Ok ["/org/bluez/hci0"; "/org/bluez/hci1"]
  /\ Bluez.BlueZ_init two_adapters_bus None
     = Ok (Bluez.mkBlueZ two_adapters_bus "/org/bluez/hci0" "hci0").
Proof.
  split; [reflexivity|].
  exact (BlueZ_init_takes_first_adapter two_adapters_bus "/org/bluez/hci0"
           ["/org/bluez/hci1"] eq_refl).
Defined.

(** X10. When the control service is on the bus and has no object at
    the given path, the constructor still returns an object, and reading
    the [address] of that object raises a D-Bus error. *)
Theorem address_of_missing_adapter (system_bus : Bluez.SystemBus)
    (objs : Bluez.managed_objects) (path : string) :
  Bluez.dict_get Bluez.SERVICE_NAME system_bus = Some objs ->
  Bluez.dict_get path objs = None ->
  Bluez.BlueZ_init system_bus (Some path)
    = Ok (Bluez.mkBlueZ system_bus path (last_field path))
  /\ Bluez.address (Bluez.mkBlueZ system_bus path (last_field path))
     = Raise DBusException.
Proof.
  intros Hservice Hpath. split.
  - unfold Bluez.BlueZ_init, Bluez.get_object. cbn [rbind].
    rewrite Hservice, adapter_id_of_total. reflexivity.
  - unfold Bluez.address, Bluez.Get. cbn [Bluez.bus Bluez.device_path].
    rewrite Hservice, Hpath. reflexivity.
Qed.

Lemma address_of_missing_adapter_witness :
  Bluez.dict_get Bluez.SERVICE_NAME adapterless_bus
    = Some [("/org/bluez", [(Bluez.PROFILEMANAGER_INTERFACE, [])])]
  /\ Bluez.dict_get "/org/bluez/hci0" [("/org/bluez", [(Bluez.PROFILEMANAGER_INTERFACE, [])])]
     = (None : option Bluez.interfaces)
  /\ Bluez.address (Bluez.mkBlueZ adapterless_bus "/org/bluez/hci0" "hci0")
     = Raise DBusException.
Proof.
  split; [reflexivity|]. split; [reflexivity|].
  exact (proj2 (address_of_missing_adapter adapterless_bus _ "/org/bluez/hci0"
                  eq_refl eq_refl)).
Defined.

(** X11. For an object built on the adapter path [parent/id], on a host
    that has [hciconfig] and whose helper commands leave their error
    output quiet, [set_class] runs exactly [hciconfig id class
    device_class]. *)
Theorem set_class_runs_hciconfig (system_bus : Bluez.SystemBus) (self : Bluez.BlueZ)
    (parent id device_class : string) (W : World) :
  free_of_sep "/"%char id ->
  Bluez.BlueZ_init system_bus (Some (parent +:+ String "/"%char id)) = Ok self ->
  "hciconfig" ∈ path_tools W ->
  helpers_quiet W ->
  Bluez.set_class self device_class W
  = (Ok tt, add_journal W [Ran ["hciconfig"; id; "class"; device_class]]).
Proof.
  intros Hid Hinit Htool Hq.
  assert (Hself : Bluez.device_id self = id).
  { unfold Bluez.BlueZ_init, Bluez.get_object in Hinit. cbn [rbind] in Hinit.
    rewrite adapter_id_of_total in Hinit.
    destruct (Bluez.dict_get Bluez.SERVICE_NAME system_bus); [|discriminate].
    cbn [rbind] in Hinit. injection Hinit as <-. cbn [Bluez.device_id].
    apply last_field_of_path, Hid. }
  unfold Bluez.set_class, bind, which.
  rewrite (bool_decide_eq_true_2 _ Htool). cbn [negb]. rewrite Hself.
  destruct (Hq (journal W) ["hciconfig"; id; "class"; device_class]) as (cp & Hs & Hcp).
  rewrite (run_command_quiet _ W cp Hs Hcp). reflexivity.
Qed.

Lemma set_class_runs_hciconfig_witness :
  free_of_sep "/"%char "hci0"
  /\ Bluez.BlueZ_init two_adapters_bus (Some "/org/bluez/hci0")
     = Ok (Bluez.mkBlueZ two_adapters_bus "/org/bluez/hci0" "hci0")
  /\ Bluez.set_class (Bluez.mkBlueZ two_adapters_bus "/org/bluez/hci0" "hci0")
       "0x002508" quiet_host
     = (Ok tt, add_journal quiet_host [Ran ["hciconfig"; "hci0"; "class"; "0x002508"]]).
Proof.
  split; [reflexivity|]. split; [reflexivity|].
  apply (set_class_runs_hciconfig two_adapters_bus _ "/org/bluez" "hci0" "0x002508"
           quiet_host); [reflexivity | reflexivity | | ].
  - apply list_elem_of_further, list_elem_of_here.
  - intros history command. exists (mkCompleted 0 [] []).
    split; [reflexivity | constructor].
Defined.

(** ** Writing and removing the override *)











(** X15. Once [toggle_clean_bluez(True)] has started a command, the
    override file is in place, whether the unit reload and the service
    restart went well or raised: a further [toggle_clean_bluez(True)]
    returns at once and runs nothing, so a restart that failed is not
    tried again. *)
Theorem toggle_on_not_retried (W W1 : World) (r : result unit) :
  Bluez.toggle_clean_bluez true W = (r, W1) ->
  journal W1 ≠ journal W ->
  (exists content, fs W1 !! Bluez.override_path = Some (RegularFile content))
  /\ Bluez.toggle_clean_bluez true W1 = (Ok tt, W1).
Proof.
  intros Hcall Hran.
  assert (Hfile : exists content,
             fs W1 !! Bluez.override_path = Some (RegularFile content)).
  { revert Hcall. unfold Bluez.toggle_clean_bluez, bind, is_file.
    destruct (fs W !! Bluez.override_path) as [[content|]|] eqn:Hov.
    { intros [= <- <-]. contradiction. }
    all: unfold read_text;
      destruct (fs W !! Bluez.service_path) as [[unit_text|]|];
        try (intros [= <- <-]; contradiction);
      destruct (List.find _ _) as [line|];
        try (unfold raise; intros [= <- <-]; contradiction);
      unfold ret, mkdir_p;
      destruct (fs W !! Bluez.override_dir) as [[?|]|];
        try (intros [= <- <-]; contradiction);
      try (destruct (privileged W) eqn:Hpriv;
           [|intros [= <- <-]; contradiction]);
      unfold write_text; cbn [set_fs fs privileged];
      try rewrite lookup_insert_ne by discriminate;
      rewrite ?Hov; try (intros [= <- <-]; contradiction);
      try (destruct (privileged W) eqn:Hpriv';
           [|intros [= <- <-]; contradiction]).
    all: match goal with
         | |- context [Bluez.reload_and_restart ?V] =>
             pose proof (reload_and_restart_keeps_fs V) as Hkeep;
             destruct (Bluez.reload_and_restart V) as [r' V'];
             intros [= <- <-]; simpl in Hkeep; rewrite Hkeep;
             eexists; apply lookup_insert_eq
         end. }
  split; [exact Hfile|].
  destruct Hfile as [content Hfile]. exact (toggle_on_present W1 content Hfile).
Qed.

Lemma toggle_on_not_retried_witness :
  raises (fst (Bluez.toggle_clean_bluez true failing_host))
  /\ journal (snd (Bluez.toggle_clean_bluez true failing_host))
     = [Ran ["systemctl"; "daemon-reload"]]
  /\ Bluez.toggle_clean_bluez true (snd (Bluez.toggle_clean_bluez true failing_host))
     = (Ok tt, snd (Bluez.toggle_clean_bluez true failing_host)).
Proof.
  assert (Hj : journal (snd (Bluez.toggle_clean_bluez true failing_host))
               = [Ran ["systemctl"; "daemon-reload"]]) by (vm_compute; reflexivity).
  split; [vm_compute; exact I|]. split; [exact Hj|].
  apply (toggle_on_not_retried failing_host _
           (fst (Bluez.toggle_clean_bluez true failing_host))).
  - destruct (Bluez.toggle_clean_bluez true failing_host); reflexivity.
  - rewrite Hj. discriminate.
Defined.

(** ** What the command runner raises *)

Lemma decode_ascii (bs : list Z) :
  Forall (fun b => 0 <= b <= 127) bs -> Utf8.decode bs = Some bs.
Proof.
  induction 1 as [|b r Hb _ IH]; [reflexivity|].
  cbn [Utf8.decode]. unfold Utf8.between.
  replace ((0 <=? b) && (b <=? 127)) with true
    by (symmetry; apply andb_true_iff; split; apply Z.leb_le; lia).
  rewrite IH. reflexivity.
Qed.

(** X16. When a started command writes ASCII text with something other
    than line feeds to its error output, the runner raises an exception
    whose message is that text with the line feeds taken out. *)
Theorem run_command_error_message (W : World) (command : list string)
    (cp : CompletedProcess) :
  spawn W (journal W) command = Some cp ->
  Forall (fun b => 0 <= b <= 127) (stderr cp) ->
  Exists (fun b => b ≠ 10) (stderr cp) ->
  fst (Bluez._run_command command W)
  = Raise (CommandError (Utf8.drop_newlines (stderr cp))).
Proof.
  intros Hspawn Hascii Hnoise.
  destruct (run_command_outcome command W cp Hspawn) as [-> _].
  rewrite (decode_ascii _ Hascii).
  destruct (Utf8.drop_newlines (stderr cp)) as [|c t] eqn:Hdrop; [|reflexivity].
  exfalso. apply Exists_exists in Hnoise as (b & Hin & Hb).
  assert (Hkept : b ∈ Utf8.drop_newlines (stderr cp)).
  { unfold Utf8.drop_newlines. apply list_elem_of_filter. split; assumption. }
  rewrite Hdrop in Hkept. inversion Hkept.
Qed.

Lemma run_command_error_message_witness :
  spawn failing_host (journal failing_host) ["systemctl"; "daemon-reload"]
    = Some (mkCompleted 1 [] [70; 97; 105; 108; 10])
  /\ fst (Bluez._run_command ["systemctl"; "daemon-reload"] failing_host)
     = Raise (CommandError [70; 97; 105; 108]).
Proof.
  split; [reflexivity|].
  apply (run_command_error_message failing_host ["systemctl"; "daemon-reload"]
           (mkCompleted 1 [] [70; 97; 105; 108; 10]) eq_refl).
  - repeat constructor; cbn; lia.
  - apply Exists_cons_hd. discriminate.
Defined.

Lemma decode_bytes_bounded (n : nat) :
  forall bs t, (length bs <= n)%nat ->
    Utf8.decode bs = Some t -> Forall (fun b => b <= 244) bs.
Proof.
  induction n as [|n IH]; intros bs t Hlen Hdec.
  - destruct bs; [constructor | simpl in Hlen; lia].
  - destruct bs as [|b0 r0]; [constructor|].
    simpl in Hlen. simpl in Hdec. unfold Utf8.between, Utf8.cont in *.
    destruct ((0 <=? b0) && (b0 <=? 127)) eqn:E0.
    { destruct (Utf8.decode r0) as [t0|] eqn:D0; [|discriminate].
      apply andb_true_iff in E0 as [_ E0]. apply Z.leb_le in E0.
      constructor; [lia|]. apply (IH r0 t0); [lia | exact D0]. }
    destruct r0 as [|b1 r1]; [discriminate|].
    destruct ((194 <=? b0) && (b0 <=? 223)) eqn:E1.
    { destruct ((128 <=? b1) && (b1 <=? 191)) eqn:C1; [|discriminate].
      destruct (Utf8.decode r1) as [t1|] eqn:D1; [|discriminate].
      apply andb_true_iff in E1 as [_ E1]. apply Z.leb_le in E1.
      apply andb_true_iff in C1 as [_ C1]. apply Z.leb_le in C1.
      constructor; [lia|]. constructor; [lia|].
      apply (IH r1 t1); [simpl in Hlen; lia | exact D1]. }
    destruct r1 as [|b2 r2]; [discriminate|].
    destruct ((224 <=? b0) && (b0 <=? 239)) eqn:E2.
    { destruct (_ && _) eqn:C2 in Hdec; [|discriminate].
      destruct (Utf8.decode r2) as [t2|] eqn:D2; [|discriminate].
      apply andb_true_iff in E2 as [_ E2]. apply Z.leb_le in E2.
      apply andb_true_iff in C2 as [C2a C2b].
      apply andb_true_iff in C2b as [_ C2b]. apply Z.leb_le in C2b.
      assert (b1 <= 191).
      { destruct (b0 =? 224); [|destruct (b0 =? 237)];
          apply andb_true_iff in C2a as [_ C2a]; apply Z.leb_le in C2a; lia. }
      repeat (constructor; [lia|]).
      apply (IH r2 t2); [simpl in Hlen; lia | exact D2]. }
    destruct r2 as [|b3 r3]; [discriminate|].
    destruct ((240 <=? b0) && (b0 <=? 244)) eqn:E3; [|discriminate].
    destruct (_ && _) eqn:C3 in Hdec; [|discriminate].
    destruct (Utf8.decode r3) as [t3|] eqn:D3; [|discriminate].
    apply andb_true_iff in E3 as [_ E3]. apply Z.leb_le in E3.
    apply andb_true_iff in C3 as [C3ab C3c].
    apply andb_true_iff in C3ab as [C3a C3b].
    apply andb_true_iff in C3b as [_ C3b]. apply Z.leb_le in C3b.
    apply andb_true_iff in C3c as [_ C3c]. apply Z.leb_le in C3c.
    assert (b1 <= 191).
    { destruct (b0 =? 240); [|destruct (b0 =? 244)];
        apply andb_true_iff in C3a as [_ C3a]; apply Z.leb_le in C3a; lia. }
    repeat (constructor; [lia|]).
    apply (IH r3 t3); [simpl in Hlen; lia | exact D3].
Qed.

(** X17. When a started command writes to its error output a byte that
    no UTF-8 text holds (0xF5 to 0xFF), the runner raises
    [UnicodeDecodeError], whatever else the output holds. *)
Theorem run_command_undecodable (W : World) (command : list string)
    (cp : CompletedProcess) :
  spawn W (journal W) command = Some cp ->
  Exists (fun b => 245 <= b) (stderr cp) ->
  fst (Bluez._run_command command W) = Raise UnicodeDecodeError.
Proof.
  intros Hspawn Hbad.
  destruct (run_command_outcome command W cp Hspawn) as [-> _].
  destruct (Utf8.decode (stderr cp)) as [t|] eqn:Hdec; [|reflexivity].
  exfalso.
  pose proof (decode_bytes_bounded _ _ _ (le_n _) Hdec) as Hall.
  apply Exists_exists in Hbad as (b & Hin & Hb).
  rewrite Forall_forall in Hall. specialize (Hall b Hin). lia.
Qed.

Lemma run_command_undecodable_witness :
  spawn garbled_host (journal garbled_host) ["hciconfig"; "hci0"; "reset"]
    = Some (mkCompleted 0 [] [69; 255])
  /\ fst (Bluez._run_command ["hciconfig"; "hci0"; "reset"] garbled_host)
     = Raise UnicodeDecodeError.
Proof.
  split; [reflexivity|].
  apply (run_command_undecodable garbled_host ["hciconfig"; "hci0"; "reset"]
           (mkCompleted 0 [] [69; 255]) eq_refl).
  apply Exists_cons_tl, Exists_cons_hd. cbn. lia.
Defined.

(** ** Address replacement: what stops it *)

Lemma replace_mac_addresses_checked (W : World) (adapter_paths addresses : list string) :
  "hcitool" ∈ path_tools W ->
  "hciconfig" ∈ path_tools W ->
  Bluez.replace_mac_addresses adapter_paths addresses W
  = match addresses with
    | [] => for_range 0 (length adapter_paths)
              (Bluez.replace_at adapter_paths addresses) W
    | _ :: _ =>
        if bool_decide (length addresses = length adapter_paths)
        then for_range 0 (length adapter_paths)
               (Bluez.replace_at adapter_paths addresses) W
        else (Raise AssertionError, W)
    end.
Proof.
  intros Htool Hconfig.
  unfold Bluez.replace_mac_addresses, bind, which.
  rewrite (bool_decide_eq_true_2 _ Htool). cbn [negb].
  rewrite (bool_decide_eq_true_2 _ Hconfig). cbn [negb].
  destruct addresses as [|a rest]; [reflexivity|].
  destruct (bool_decide _); reflexivity.
Qed.

(** X18. With both helper binaries present, a non-empty list of
    addresses whose length differs from that of the adapter paths makes
    [replace_mac_addresses] fail its assertion before any command is
    run. *)
Theorem replace_mac_addresses_length_mismatch (W : World)
    (adapter_paths addresses : list string) :
  "hcitool" ∈ path_tools W ->
  "hciconfig" ∈ path_tools W ->
  addresses ≠ [] ->
  length addresses ≠ length adapter_paths ->
  Bluez.replace_mac_addresses adapter_paths addresses W = (Raise AssertionError, W).
Proof.
  intros Htool Hconfig Hne Hlen.
  rewrite (replace_mac_addresses_checked W _ _ Htool Hconfig).
  destruct addresses as [|a rest]; [congruence|].
  rewrite (bool_decide_eq_false_2 _ Hlen). reflexivity.
Qed.

Lemma replace_mac_addresses_length_mismatch_witness :
  ["11:22:33:44:55:66"; "AA:BB:CC:DD:EE:FF"] ≠ []
  /\ length ["11:22:33:44:55:66"; "AA:BB:CC:DD:EE:FF"] ≠ length ["/org/bluez/hci0"]
  /\ Bluez.replace_mac_addresses ["/org/bluez/hci0"]
       ["11:22:33:44:55:66"; "AA:BB:CC:DD:EE:FF"] quiet_host
     = (Raise AssertionError, quiet_host).
Proof.
  assert (H1 : ["11:22:33:44:55:66"; "AA:BB:CC:DD:EE:FF"] ≠ []) by discriminate.
  assert (H2 : length ["11:22:33:44:55:66"; "AA:BB:CC:DD:EE:FF"]
               ≠ length ["/org/bluez/hci0"]) by discriminate.
  split; [exact H1|]. split; [exact H2|].
  apply (replace_mac_addresses_length_mismatch quiet_host); try assumption.
  - apply list_elem_of_here.
  - apply list_elem_of_further, list_elem_of_here.
Defined.

(** X19. The assertion is only made for a non-empty list: with both
    helper binaries present, an empty list of addresses and at least one
    adapter path, [replace_mac_addresses] raises [IndexError] at the first
    adapter, before any command is run. *)
Theorem replace_mac_addresses_no_addresses (W : World) (path : string)
    (others : list string) :
  "hcitool" ∈ path_tools W ->
  "hciconfig" ∈ path_tools W ->
  Bluez.replace_mac_addresses (path :: others) [] W = (Raise IndexError, W).
Proof.
  intros Htool Hconfig.
  rewrite (replace_mac_addresses_checked W _ _ Htool Hconfig).
  cbn [length for_range]. unfold bind at 1.
  unfold Bluez.replace_at, bind, lift, PyStr.item. cbn [lookup list_lookup].
  rewrite adapter_id_of_total. reflexivity.
Qed.

Lemma replace_mac_addresses_no_addresses_witness :
  ("hcitool" ∈ path_tools quiet_host)
  /\ Bluez.replace_mac_addresses ["/org/bluez/hci0"] [] quiet_host
     = (Raise IndexError, quiet_host).
Proof.
  assert (H : "hcitool" ∈ path_tools quiet_host) by apply list_elem_of_here.
  split; [exact H|].
  apply (replace_mac_addresses_no_addresses quiet_host "/org/bluez/hci0" [] H).
  apply list_elem_of_further, list_elem_of_here.
Defined.

(** X20. With both helper binaries present and as many addresses as
    adapter paths, a first address with fewer than six colon-separated
    fields makes [replace_mac_addresses] raise [IndexError] before any
    command is run. *)
Theorem replace_mac_addresses_short_address (W : World) (path address : string)
    (paths addresses : list string) :
  "hcitool" ∈ path_tools W ->
  "hciconfig" ∈ path_tools W ->
  length addresses = length paths ->
  (length (PyStr.split ":"%char address) < 6)%nat ->
  Bluez.replace_mac_addresses (path :: paths) (address :: addresses) W
  = (Raise IndexError, W).
Proof.
  intros Htool Hconfig Hlen Hshort.
  rewrite (replace_mac_addresses_checked W _ _ Htool Hconfig).
  rewrite bool_decide_eq_true_2 by (cbn [length]; congruence).
  cbn [length for_range]. unfold bind at 1.
  unfold Bluez.replace_at, bind, lift, PyStr.item. cbn [lookup list_lookup].
  rewrite adapter_id_of_total.
  destruct (PyStr.split ":" address !! 5%nat) as [m5|] eqn:H5; [|reflexivity].
  apply lookup_lt_Some in H5. lia.
Qed.

Lemma replace_mac_addresses_short_address_witness :
  (length (PyStr.split ":"%char "11:22:33:44:55") < 6)%nat
  /\ Bluez.replace_mac_addresses ["/org/bluez/hci0"] ["11:22:33:44:55"] quiet_host
     = (Raise IndexError, quiet_host).
Proof.
  assert (H : (length (PyStr.split ":"%char "11:22:33:44:55") < 6)%nat) by (cbn; lia).
  split; [exact H|].
  apply (replace_mac_addresses_short_address quiet_host "/org/bluez/hci0"
           "11:22:33:44:55" [] []); [| | reflexivity | exact H].
  - apply list_elem_of_here.
  - apply list_elem_of_further, list_elem_of_here.
Defined.

(** X21. When the vendor command of the first adapter writes an error,
    [replace_mac_addresses] raises right after it: the adapter is not
    reset and nothing is run for the adapters that follow. *)
Theorem replace_mac_addresses_stops_at_failure (W : World) (path : string)
    (octets : list string) (paths addresses : list string) (cp : CompletedProcess) :
  "hcitool" ∈ path_tools W ->
  "hciconfig" ∈ path_tools W ->
  length addresses = length paths ->
  six_octets octets ->
  spawn W (journal W)
    (Bluez.vendor_command (last_field path) (List.map Bluez.hex_arg (List.rev octets)))
    = Some cp ->
  Exists (fun b => b ≠ 10) (stderr cp) ->
  raises (fst (Bluez.replace_mac_addresses (path :: paths)
                 (PyStr.join ":" octets :: addresses) W))
  /\ journal (snd (Bluez.replace_mac_addresses (path :: paths)
                     (PyStr.join ":" octets :: addresses) W))
     = journal W
       ++ [Ran (Bluez.vendor_command (last_field path)
                  (List.map Bluez.hex_arg (List.rev octets)))].
Proof.
  intros Htool Hconfig Hlen [Hsix Hfree] Hspawn Hnoise.
  rewrite (replace_mac_addresses_checked W _ _ Htool Hconfig).
  rewrite bool_decide_eq_true_2 by (cbn [length]; congruence).
  assert (Hsplit : PyStr.split ":"%char (PyStr.join ":" octets) = octets).
  { apply split_join; [|exact Hfree]. destruct octets; [discriminate Hsix|discriminate]. }
  destruct octets as [|o0 [|o1 [|o2 [|o3 [|o4 [|o5 [|? ?]]]]]]]; try discriminate Hsix.
  cbn [length for_range]. unfold bind at 1.
  unfold Bluez.replace_at, bind, lift, PyStr.item. cbn [lookup list_lookup].
  rewrite adapter_id_of_total, Hsplit. cbn [lookup list_lookup].
  set (vendor := Bluez.vendor_command _ _) in *.
  pose proof (run_command_outcome vendor W cp Hspawn) as [Hr Hw].
  destruct (Bluez._run_command vendor W) as [r W1]. cbn [fst snd] in Hr, Hw. subst W1.
  assert (Hraise : raises r).
  { rewrite Hr.
    destruct (Utf8.decode (stderr cp)) as [decoded|] eqn:Hdec; [|exact I].
    destruct (Utf8.drop_newlines decoded) as [|x t] eqn:Hdrop; [|exact I].
    pose proof (decode_drop_newlines_nil _ _ _ (le_n _) Hdec Hdrop) as Hlf.
    apply Exists_exists in Hnoise as (b & Hin & Hb).
    rewrite Forall_forall in Hlf. specialize (Hlf b Hin). congruence. }
  destruct r as [ok|e]; [contradiction|].
  split; [exact I | reflexivity].
Qed.

Lemma replace_mac_addresses_stops_at_failure_witness :
  six_octets ["11"; "22"; "33"; "44"; "55"; "66"]
  /\ raises (fst (Bluez.replace_mac_addresses ["/org/bluez/hci0"; "/org/bluez/hci1"]
                    ["11:22:33:44:55:66"; "AA:BB:CC:DD:EE:FF"] failing_host))
  /\ journal (snd (Bluez.replace_mac_addresses ["/org/bluez/hci0"; "/org/bluez/hci1"]
                     ["11:22:33:44:55:66"; "AA:BB:CC:DD:EE:FF"] failing_host))
     = [Ran ["hcitool"; "-i"; "hci0"; "cmd"; "0x3f"; "0x001";
             "0x66"; "0x55"; "0x44"; "0x33"; "0x22"; "0x11"]].
Proof.
  assert (H6 : six_octets ["11"; "22"; "33"; "44"; "55"; "66"]) by (repeat constructor).
  split; [exact H6|].
  apply (replace_mac_addresses_stops_at_failure failing_host "/org/bluez/hci0"
           ["11"; "22"; "33"; "44"; "55"; "66"] ["/org/bluez/hci1"]
           ["AA:BB:CC:DD:EE:FF"] (mkCompleted 1 [] [70; 97; 105; 108; 10]));
    [ | | reflexivity | exact H6 | reflexivity | ].
  - apply list_elem_of_here.
  - apply list_elem_of_further, list_elem_of_here.
  - apply Exists_cons_hd. discriminate.
Defined.

(** * Further properties of the record and playback loop *)

(** ** Who writes which entry *)

Lemma loop_body_frame (w w' : gmap string json) (key : string) :
  key ≠ "input_list" ->
  snd (loop_body w) = Ok w' ->
  w' !! key = w !! key.
Proof.
  intros Hkey. unfold loop_body.
  destruct (getitem w "playing") as [playing|e]; [|discriminate].
  destruct (truthy playing).
  - destruct (rbind (getitem w "input_list") iterate) as [l|e]; [|discriminate].
    intros [= <-]. reflexivity.
  - destruct (getitem w "packet") as [packet|e]; [|discriminate].
    destruct (getitem w "recording") as [recording|e]; [|discriminate].
    destruct (truthy recording); [|intros [= <-]; reflexivity].
    destruct (getitem w "input_list") as [[| | | | |l|]|e]; try discriminate.
    intros [= <-]. apply lookup_insert_ne. congruence.
Qed.

Lemma step_frame (s : system) (ev : event) (key : string) :
  may_assign ev key = false ->
  wrapper (step s ev) !! key = wrapper s !! key.
Proof.
  intros Hev.
  destruct ev as [r|server_state|].
  - destruct r; cbn [may_assign] in Hev; cbn; try reflexivity;
      apply lookup_insert_ne; intros <-; discriminate Hev.
  - cbn [step]. destruct (main_thread s); try reflexivity.
    destruct (String.eqb "connected" server_state); [|reflexivity].
    cbn [wrapper]. apply lookup_insert_ne. intros <-. discriminate Hev.
  - cbn [step]. destruct (main_thread s); try reflexivity.
    destruct (loop_body (wrapper s)) as [done [w'|e]] eqn:Hbody; [|reflexivity].
    cbn [wrapper]. apply (loop_body_frame (wrapper s)).
    + intros ->. discriminate Hev.
    + rewrite Hbody. reflexivity.
Qed.

Lemma steps_frame (evs : list event) (key : string) :
  forall s : system,
    forallb (fun ev => negb (may_assign ev key)) evs = true ->
    wrapper (steps s evs) !! key = wrapper s !! key.
Proof.
  induction evs as [|ev evs IH]; intros s Hq; [reflexivity|].
  cbn [forallb] in Hq. apply andb_true_iff in Hq as [Hev Hq].
  apply negb_true_iff in Hev.
  change (steps s (ev :: evs)) with (steps (step s ev) evs).
  rewrite (IH _ Hq). apply step_frame, Hev.
Qed.

(** X22. The loop thread writes the recorded sequence and nothing else:
    whatever it does, polling for the connection or making passes, every
    other entry of the dictionary ([packet], [recording], [playing])
    keeps its value. *)
Theorem loop_thread_writes_input_list_only (s : system) (evs : list event)
    (key : string) :
  key ≠ "input_list" ->
  forallb of_loop_thread evs = true ->
  wrapper (steps s evs) !! key = wrapper s !! key.
Proof.
  intros Hkey Hloop. apply steps_frame.
  apply forallb_forall. intros ev Hin.
  rewrite forallb_forall in Hloop. specialize (Hloop ev Hin).
  destruct ev as [r|server_state|]; [discriminate Hloop| |];
    cbn [may_assign]; apply negb_true_iff, String.eqb_neq; exact Hkey.
Qed.

Lemma loop_thread_writes_input_list_only_witness :
  "recording" ≠ "input_list"
  /\ forallb of_loop_thread [Pass; Polled "connected"; Pass; Pass] = true
  /\ wrapper (steps connected_recording [Pass; Polled "connected"; Pass; Pass])
       !! "recording"
     = wrapper connected_recording !! "recording".
Proof.
  assert (H : "recording" ≠ "input_list") by discriminate.
  split; [exact H|]. split; [reflexivity|].
  exact (loop_thread_writes_input_list_only connected_recording
           [Pass; Polled "connected"; Pass; Pass] "recording" H eq_refl).
Defined.

(** X23. What [set_playing] and [set_recording] store is what
    [get_playing] and [get_recording] answer, until the same [POST] view
    is served again: neither the loop thread nor any other view changes
    it. *)
Theorem flags_read_back (s : system) (value : json) (evs : list event) :
  (forallb (fun ev => negb (may_assign ev "playing")) evs = true ->
   fst (get_playing (wrapper (steps s (Served (POST_set_playing value) :: evs))))
   = Ok (jsonify value))
  /\ (forallb (fun ev => negb (may_assign ev "recording")) evs = true ->
      fst (get_recording (wrapper (steps s (Served (POST_set_recording value) :: evs))))
      = Ok (jsonify value)).
Proof.
  split; intros Hq;
    match goal with
    | |- context [steps s (?ev :: evs)] =>
        change (steps s (ev :: evs)) with (steps (step s ev) evs)
    end;
    unfold get_playing, get_recording, getitem; cbn [fst];
    rewrite (steps_frame evs _ _ Hq); cbn [step route set_playing set_recording wrapper];
    rewrite lookup_insert_eq; reflexivity.
Qed.

Lemma flags_read_back_witness :
  forallb (fun ev => negb (may_assign ev "playing"))
    [Pass; Served (POST_set_recording (JBool true)); Served (POST_gamepad P1); Pass] = true
  /\ fst (get_playing
            (wrapper (steps connected_recording
               (Served (POST_set_playing (JInt 1))
                :: [Pass; Served (POST_set_recording (JBool true));
                    Served (POST_gamepad P1); Pass]))))
     = Ok (jsonify (JInt 1)).
Proof.
  split; [reflexivity|].
  exact (proj1 (flags_read_back connected_recording (JInt 1)
                  [Pass; Served (POST_set_recording (JBool true));
                   Served (POST_gamepad P1); Pass]) eq_refl).
Defined.

(** ** What the views and the loop can rely on *)

Lemma is_Some_insert (w : gmap string json) (key key' : string) (v : json) :
  is_Some (w !! key) -> is_Some (<[key' := v]> w !! key).
Proof.
  intros H. destruct (decide (key' = key)) as [->|Hne].
  - rewrite lookup_insert_eq. eauto.
  - rewrite lookup_insert_ne by exact Hne. exact H.
Qed.

Lemma loop_body_keeps_entries (w : gmap string json) :
  is_Some (w !! "packet") -> is_Some (w !! "recording") ->
  is_Some (w !! "playing") -> is_Some (w !! "input_list") ->
  match snd (loop_body w) with
  | Ok w' => is_Some (w' !! "packet") /\ is_Some (w' !! "recording")
             /\ is_Some (w' !! "playing") /\ is_Some (w' !! "input_list")
  | Raise e => e = TypeError \/ e = AttributeError
  end.
Proof.
  intros [packet Hk] [recording Hr] [playing Hp] [input_list Hl].
  unfold loop_body, getitem. rewrite Hp, Hl, Hk, Hr. cbn [rbind].
  destruct (truthy playing).
  - destruct (iterate input_list) as [l|e] eqn:Hit; cbn [snd].
    + rewrite Hk, Hr, Hp, Hl. eauto.
    + destruct input_list; try discriminate Hit; injection Hit as <-; auto.
  - destruct (truthy recording); cbn [snd].
    + destruct input_list; cbn [snd]; auto.
      repeat split; apply is_Some_insert; eauto.
    + rewrite Hk, Hr, Hp, Hl. eauto.
Qed.

Ltac entries :=
  repeat match goal with
    | |- _ /\ _ => split
    | |- is_Some (<[?k := _]> _ !! ?k) => rewrite lookup_insert_eq; eauto
    | |- is_Some (<[_ := _]> _ !! _) => apply is_Some_insert
    | |- is_Some _ => solve [assumption | eauto]
    | |- _ ≠ _ => solve [discriminate | auto]
    | |- forall _, _ => intros
    end.

Lemma step_keeps_entries (s : system) (ev : event) :
  entries_present s -> entries_present (step s ev).
Proof.
  intros Hs. pose proof Hs as (Hk & Hr & Hp & Hl & Hd).
  destruct ev as [r|server_state|].
  - destruct r; unfold entries_present; cbn; entries.
  - cbn [step]. destruct (main_thread s) eqn:Hm; try exact Hs.
    destruct (String.eqb "connected" server_state);
      unfold entries_present; cbn; entries.
  - cbn [step]. destruct (main_thread s) eqn:Hm; try exact Hs.
    pose proof (loop_body_keeps_entries (wrapper s) Hk Hr Hp (Hl eq_refl)) as Hbody.
    destruct (loop_body (wrapper s)) as [done [w'|e]]; cbn [snd] in Hbody;
      unfold entries_present; cbn.
    + destruct Hbody as (H1 & H2 & H3 & H4). entries.
    + entries. intros Hkey. destruct Hbody as [->| ->]; discriminate Hkey.
Qed.

Lemma steps_keep_entries (evs : list event) :
  forall s : system, entries_present s -> entries_present (steps s evs).
Proof.
  induction evs as [|ev evs IH]; intros s Hs; [exact Hs|].
  change (steps s (ev :: evs)) with (steps (step s ev) evs).
  apply IH, step_keeps_entries, Hs.
Qed.

(** X24. Whatever requests are served and whatever the loop thread
    does, from the start of the program on, [get_recording] and
    [get_playing] answer with a value (they never raise), and the loop
    thread is never ended by a [KeyError]. *)
Theorem flags_always_present (DIRECT_INPUT_IDLE_PACKET : json) (evs : list event) :
  (exists recording,
     fst (get_recording (wrapper (steps (start DIRECT_INPUT_IDLE_PACKET) evs)))
     = Ok (jsonify recording))
  /\ (exists playing,
        fst (get_playing (wrapper (steps (start DIRECT_INPUT_IDLE_PACKET) evs)))
        = Ok (jsonify playing))
  /\ (forall key,
        main_thread (steps (start DIRECT_INPUT_IDLE_PACKET) evs) ≠ Died (KeyError key)).
Proof.
  assert (Hstart : entries_present (start DIRECT_INPUT_IDLE_PACKET)).
  { unfold entries_present, start, initial_wrapper. cbn [wrapper main_thread].
    repeat split; try discriminate.
    - do 2 (rewrite lookup_insert_ne by discriminate). rewrite lookup_insert_eq. eauto.
    - rewrite lookup_insert_ne by discriminate. rewrite lookup_insert_eq. eauto.
    - rewrite lookup_insert_eq. eauto. }
  destruct (steps_keep_entries evs _ Hstart) as (_ & [r Hr] & [p Hp] & _ & Hd).
  split; [exists r; unfold get_recording, getitem; cbn [fst]; rewrite Hr; reflexivity|].
  split; [exists p; unfold get_playing, getitem; cbn [fst]; rewrite Hp; reflexivity|].
  exact Hd.
Qed.

(** ** The connection *)

Lemma steps_stay_connecting (evs : list event) :
  forall s : system,
    main_thread s = Connecting ->
    forallb (fun ev => negb (sees_connected ev)) evs = true ->
    main_thread (steps s evs) = Connecting.
Proof.
  induction evs as [|ev evs IH]; intros s Hc Hq; [exact Hc|].
  cbn [forallb] in Hq. apply andb_true_iff in Hq as [Hev Hq].
  apply negb_true_iff in Hev.
  change (steps s (ev :: evs)) with (steps (step s ev) evs).
  apply IH; [|exact Hq].
  destruct ev as [r|server_state|].
  - destruct r; exact Hc.
  - cbn [sees_connected] in Hev. cbn [step]. rewrite Hc, Hev. reflexivity.
  - cbn [step]. rewrite Hc. exact Hc.
Qed.

(** X25. When the connecting loop first sees the state "connected", the
    transmission loop starts on an empty recorded sequence, whatever was
    asked before: a sequence stored by [set_input_list] before the console
    connected is dropped. *)
Theorem connection_empties_input_list (DIRECT_INPUT_IDLE_PACKET : json)
    (evs : list event) :
  forallb (fun ev => negb (sees_connected ev)) evs = true ->
  main_thread (steps (start DIRECT_INPUT_IDLE_PACKET) (evs ++ [Polled "connected"]))
    = Running
  /\ wrapper (steps (start DIRECT_INPUT_IDLE_PACKET) (evs ++ [Polled "connected"]))
       !! "input_list" = Some (JArr []).
Proof.
  intros Hq.
  pose proof (steps_stay_connecting evs (start DIRECT_INPUT_IDLE_PACKET) eq_refl Hq) as Hc.
  rewrite steps_app. unfold steps at 1 3. cbn [List.fold_left step].
  rewrite Hc. cbn [String.eqb Ascii.eqb Bool.eqb main_thread wrapper].
  split; [reflexivity | apply lookup_insert_eq].
Qed.

Lemma connection_empties_input_list_witness :
  forallb (fun ev => negb (sees_connected ev)) eager_client = true
  /\ wrapper (steps (start (JObj [])) eager_client) !! "input_list" = Some (JArr [P1; P2])
  /\ wrapper (steps (start (JObj [])) (eager_client ++ [Polled "connected"]))
       !! "input_list" = Some (JArr []).
Proof.
  split; [reflexivity|]. split; [vm_compute; reflexivity|].
  exact (proj2 (connection_empties_input_list (JObj []) eager_client eq_refl)).
Defined.

(** ** Uploaded sequences *)

(** X26. A list stored by [set_input_list] while the loop is running is
    played by the next pass once [playing] is set: its items are
    assigned to the controller input in the order of the list, and the
    list stays in the dictionary. *)
Theorem uploaded_list_is_played (s : system) (uploaded : list json) :
  main_thread s = Running ->
  transmissions
    (output (steps s [Served (POST_set_input_list (JArr uploaded));
                      Served (POST_set_playing (JBool true)); Pass]))
    = transmissions (output s) ++ uploaded
  /\ wrapper (steps s [Served (POST_set_input_list (JArr uploaded));
                       Served (POST_set_playing (JBool true)); Pass]) !! "input_list"
     = Some (JArr uploaded).
Proof.
  intros Hrun. unfold steps.
  cbn [List.fold_left step route set_input_list set_playing
       main_thread wrapper output replies].
  rewrite Hrun.
  rewrite (loop_body_playing _ (JBool true) uploaded).
  - cbn [output wrapper].
    rewrite !transmissions_app, transmissions_play_all. cbn [transmissions].
    rewrite app_nil_r. split; [reflexivity|].
    rewrite lookup_insert_ne by discriminate. apply lookup_insert_eq.
  - apply lookup_insert_eq.
  - reflexivity.
  - rewrite lookup_insert_ne by discriminate. apply lookup_insert_eq.
Qed.

Lemma uploaded_list_is_played_witness :
  main_thread connected_recording = Running
  /\ transmissions
       (output (steps connected_recording
                  [Served (POST_set_input_list (JArr [P3; P1]));
                   Served (POST_set_playing (JBool true)); Pass]))
     = transmissions (output connected_recording) ++ [P3; P1].
Proof.
  split; [reflexivity|].
  exact (proj1 (uploaded_list_is_played connected_recording [P3; P1] eq_refl)).
Defined.

Lemma steps_after_death (evs : list event) :
  forall (s : system) (e : exn),
    main_thread s = Died e ->
    main_thread (steps s evs) = Died e /\ output (steps s evs) = output s.
Proof.
  induction evs as [|ev evs IH]; intros s e Hd; [auto|].
  change (steps s (ev :: evs)) with (steps (step s ev) evs).
  assert (Hstep : main_thread (step s ev) = Died e /\ output (step s ev) = output s).
  { destruct ev as [r|server_state|]; cbn [step].
    - destruct (route r (wrapper s)). cbn. auto.
    - rewrite Hd. auto.
    - rewrite Hd. auto. }
  destruct Hstep as [Hd' Ho']. destruct (IH _ e Hd') as [H1 H2].
  split; [exact H1 | congruence].
Qed.

(** X27. [set_input_list] stores whatever it is sent.  If that is a
    number, a boolean or null, the first pass made with [playing] set
    raises [TypeError]: the loop thread ends without assigning anything,
    and nothing is assigned afterwards, whatever is requested. *)
Theorem playing_a_scalar_ends_the_loop (s : system) (playing scalar : json)
    (evs : list event) :
  main_thread s = Running ->
  wrapper s !! "playing" = Some playing -> truthy playing = true ->
  wrapper s !! "input_list" = Some scalar ->
  iterate scalar = Raise TypeError ->
  main_thread (step s Pass) = Died TypeError
  /\ main_thread (steps (step s Pass) evs) = Died TypeError
  /\ output (steps (step s Pass) evs) = output s.
Proof.
  intros Hrun Hp Ht Hl Hscalar.
  assert (Hbody : loop_body (wrapper s) = ([], Raise TypeError)).
  { unfold loop_body. rewrite (getitem_lookup _ _ _ Hp), Ht, (getitem_lookup _ _ _ Hl).
    cbn [rbind]. rewrite Hscalar. reflexivity. }
  assert (Hstep : main_thread (step s Pass) = Died TypeError
                  /\ output (step s Pass) = output s).
  { cbn [step]. rewrite Hrun, Hbody. cbn. rewrite app_nil_r. auto. }
  destruct Hstep as [Hd Ho]. split; [exact Hd|].
  destruct (steps_after_death evs _ _ Hd) as [H1 H2].
  split; [exact H1 | congruence].
Qed.

Lemma playing_a_scalar_ends_the_loop_witness :
  main_thread connected_scalar = Running
  /\ wrapper connected_scalar !! "input_list" = Some (JInt 7)
  /\ main_thread (step connected_scalar Pass) = Died TypeError
  /\ output (steps (step connected_scalar Pass)
               [Served GET_clear_input_list; Pass; Served (POST_gamepad P1); Pass])
     = output connected_scalar.
Proof.
  assert (Hp : wrapper connected_scalar !! "playing" = Some (JBool true))
    by (vm_compute; reflexivity).
  assert (Hl : wrapper connected_scalar !! "input_list" = Some (JInt 7))
    by (vm_compute; reflexivity).
  split; [reflexivity|]. split; [exact Hl|].
  pose proof (playing_a_scalar_ends_the_loop connected_scalar (JBool true) (JInt 7)
                [Served GET_clear_input_list; Pass; Served (POST_gamepad P1); Pass]
                eq_refl Hp eq_refl Hl eq_refl) as (H1 & _ & H3).
  split; [exact H1 | exact H3].
Defined.

(** X28. If the recorded sequence is not a list, a pass made with
    [playing] unset and [recording] set sends the packet and then raises
    [AttributeError]: the loop thread ends and the dictionary is left as
    it was. *)
Theorem recording_into_a_non_list_ends_the_loop (s : system)
    (playing recording packet stored : json) :
  main_thread s = Running ->
  wrapper s !! "playing" = Some playing -> truthy playing = false ->
  wrapper s !! "recording" = Some recording -> truthy recording = true ->
  wrapper s !! "packet" = Some packet ->
  wrapper s !! "input_list" = Some stored ->
  (forall items, stored ≠ JArr items) ->
  main_thread (step s Pass) = Died AttributeError
  /\ output (step s Pass) = output s ++ [Send packet]
  /\ wrapper (step s Pass) = wrapper s.
Proof.
  intros Hrun Hp Hpf Hr Hrt Hk Hl Hnot.
  assert (Hbody : loop_body (wrapper s) = ([Send packet], Raise AttributeError)).
  { unfold loop_body.
    rewrite (getitem_lookup _ _ _ Hp), Hpf, (getitem_lookup _ _ _ Hk),
      (getitem_lookup _ _ _ Hr), Hrt, (getitem_lookup _ _ _ Hl), json_copy_content.
    destruct stored as [| | | | |items|]; try reflexivity.
    exfalso. apply (Hnot items). reflexivity. }
  cbn [step]. rewrite Hrun, Hbody. cbn. auto.
Qed.

Lemma recording_into_a_non_list_ends_the_loop_witness :
  main_thread connected_object = Running
  /\ wrapper connected_object !! "input_list" = Some (JObj [("A", JBool true)])
  /\ main_thread (step connected_object Pass) = Died AttributeError
  /\ output (step connected_object Pass) = output connected_object ++ [Send P1].
Proof.
  assert (Hp : wrapper connected_object !! "playing" = Some (JBool false))
    by (vm_compute; reflexivity).
  assert (Hr : wrapper connected_object !! "recording" = Some (JBool true))
    by (vm_compute; reflexivity).
  assert (Hk : wrapper connected_object !! "packet" = Some P1)
    by (vm_compute; reflexivity).
  assert (Hl : wrapper connected_object !! "input_list" = Some (JObj [("A", JBool true)]))
    by (vm_compute; reflexivity).
  split; [reflexivity|]. split; [exact Hl|].
  pose proof (recording_into_a_non_list_ends_the_loop connected_object
                (JBool false) (JBool true) P1 (JObj [("A", JBool true)])
                eq_refl Hp eq_refl Hr eq_refl Hk Hl
                (fun items H => ltac:(discriminate H))) as (H1 & H2 & _).
  split; [exact H1 | exact H2].
Defined.

(** ** Passes of the loop *)

Lemma pass_appends_at_most_one (s : system) (recorded : list json) :
  wrapper s !! "input_list" = Some (JArr recorded) ->
  exists added,
    wrapper (step s Pass) !! "input_list" = Some (JArr (recorded ++ added))
    /\ (length added <= 1)%nat.
Proof.
  intros Hl.
  assert (Hsame : exists added,
            wrapper s !! "input_list" = Some (JArr (recorded ++ added))
            /\ (length added <= 1)%nat).
  { exists []. rewrite app_nil_r. split; [exact Hl | cbn; lia]. }
  cbn [step]. destruct (main_thread s); try exact Hsame.
  unfold loop_body.
  destruct (getitem (wrapper s) "playing") as [playing|e]; [|exact Hsame].
  destruct (truthy playing).
  - destruct (rbind (getitem (wrapper s) "input_list") iterate); exact Hsame.
  - destruct (getitem (wrapper s) "packet") as [packet|e]; [|exact Hsame].
    destruct (getitem (wrapper s) "recording") as [recording|e]; [|exact Hsame].
    destruct (truthy recording); [|exact Hsame].
    rewrite (getitem_lookup _ _ _ Hl). cbn [wrapper].
    exists [json_copy packet]. split; [apply lookup_insert_eq | cbn; lia].
Qed.

(** X29. The loop only ever adds to the end of the recorded sequence:
    after any number of passes the sequence is the one before, followed
    by at most one new packet per pass. *)
Theorem passes_only_append (n : nat) (s : system) (recorded : list json) :
  wrapper s !! "input_list" = Some (JArr recorded) ->
  exists added,
    wrapper (steps s (replicate n Pass)) !! "input_list"
      = Some (JArr (recorded ++ added))
    /\ (length added <= n)%nat.
Proof.
  revert s recorded. induction n as [|n IH]; intros s recorded Hl.
  - exists []. rewrite app_nil_r. split; [exact Hl | cbn; lia].
  - change (steps s (replicate (S n) Pass)) with (steps (step s Pass) (replicate n Pass)).
    destruct (pass_appends_at_most_one s recorded Hl) as (a1 & H1 & Hlen1).
    destruct (IH _ _ H1) as (a2 & H2 & Hlen2).
    exists (a1 ++ a2). rewrite app_assoc. split; [exact H2|].
    rewrite length_app. lia.
Qed.

Lemma passes_only_append_witness :
  wrapper connected_recording !! "input_list" = Some (JArr [])
  /\ exists added,
       wrapper (steps connected_recording (replicate 3 Pass)) !! "input_list"
         = Some (JArr ([] ++ added))
       /\ (length added <= 3)%nat.
Proof.
  assert (Hl : wrapper connected_recording !! "input_list" = Some (JArr []))
    by (vm_compute; reflexivity).
  split; [exact Hl|].
  exact (passes_only_append 3 connected_recording [] Hl).
Defined.

Lemma steps_direct (n : nat) :
  forall (s : system) (playing recording packet : json),
    main_thread s = Running ->
    wrapper s !! "playing" = Some playing -> truthy playing = false ->
    wrapper s !! "recording" = Some recording -> truthy recording = false ->
    wrapper s !! "packet" = Some packet ->
    steps s (replicate n Pass)
    = mkSystem (wrapper s) Running
        (output s ++ concat (replicate n [Send packet; Pause 1])) (replies s).
Proof.
  induction n as [|n IH]; intros s playing recording packet Hrun Hp Hpf Hr Hrf Hk.
  - cbn. rewrite app_nil_r. destruct s; cbn in *. subst. reflexivity.
  - change (steps s (replicate (S n) Pass)) with (steps (step s Pass) (replicate n Pass)).
    assert (Hbody : loop_body (wrapper s) = ([Send packet; Pause 1], Ok (wrapper s))).
    { unfold loop_body.
      rewrite (getitem_lookup _ _ _ Hp), Hpf, (getitem_lookup _ _ _ Hk),
        (getitem_lookup _ _ _ Hr), Hrf, json_copy_content. reflexivity. }
    cbn [step]. rewrite Hrun, Hbody.
    rewrite (IH _ playing recording packet); cbn [main_thread wrapper output replies];
      try assumption; try reflexivity.
    cbn [replicate concat]. rewrite <- app_assoc. reflexivity.
Qed.

(** X30. With [playing] and [recording] both unset, every pass assigns
    the current packet to the controller input and pauses one
    millisecond: over any number of passes the same packet is sent once
    per pass, nothing is recorded and the dictionary is left as it was. *)
Theorem direct_input_is_repeated (n : nat) (s : system)
    (playing recording packet : json) :
  main_thread s = Running ->
  wrapper s !! "playing" = Some playing -> truthy playing = false ->
  wrapper s !! "recording" = Some recording -> truthy recording = false ->
  wrapper s !! "packet" = Some packet ->
  main_thread (steps s (replicate n Pass)) = Running
  /\ wrapper (steps s (replicate n Pass)) = wrapper s
  /\ output (steps s (replicate n Pass))
     = output s ++ concat (replicate n [Send packet; Pause 1])
  /\ transmissions (output (steps s (replicate n Pass)))
     = transmissions (output s) ++ replicate n packet.
Proof.
  intros Hrun Hp Hpf Hr Hrf Hk.
  rewrite (steps_direct n s playing recording packet Hrun Hp Hpf Hr Hrf Hk).
  cbn [main_thread wrapper output]. repeat split.
  rewrite transmissions_app. f_equal.
  clear. induction n as [|n IH]; [reflexivity|].
  cbn [replicate concat app transmissions]. f_equal. exact IH.
Qed.

Lemma direct_input_is_repeated_witness :
  main_thread connected_direct = Running
  /\ wrapper connected_direct !! "packet" = Some P2
  /\ transmissions (output (steps connected_direct (replicate 3 Pass)))
     = transmissions (output connected_direct) ++ [P2; P2; P2].
Proof.
  assert (Hp : wrapper connected_direct !! "playing" = Some (JBool false))
    by (vm_compute; reflexivity).
  assert (Hr : wrapper connected_direct !! "recording" = Some (JBool false))
    by (vm_compute; reflexivity).
  assert (Hk : wrapper connected_direct !! "packet" = Some P2)
    by (vm_compute; reflexivity).
  split; [reflexivity|]. split; [exact Hk|].
  exact (proj2 (proj2 (proj2
    (direct_input_is_repeated 3 connected_direct (JBool false) (JBool false) P2
       eq_refl Hp eq_refl Hr eq_refl Hk)))).
Defined.
